(** * The PDF to EPUB conversion adapter ([scripts/convert_pdf.py])

    The script is a command-line adapter.  It reads one JSON request from
    [sys.argv[1]], calls [pdf_craft.transform_epub] with a fixed set of
    options, prints one JSON verdict and leaves through [sys.exit].

    The embedding follows the script statement by statement:
    - Python values are the inductive type [value]; a [str] is the list of
      its code points, a [float] a binary64 number;
    - statements run in the monad [M], which threads the trace of what the
      process did (texts written, library calls made) and carries the two
      ways of leaving a statement early: an instance of [Exception], or
      [SystemExit], which derives from [BaseException] only and therefore
      passes through [except Exception];
    - [json.dumps] is defined in full, since the texts the script prints
      come from it;
    - the decoder [json.loads] and the conversion routine [transform_epub]
      are parameters of section [Adapter].  A library call returns or
      raises an instance of [Exception]; signals delivered to the
      interpreter while the library runs are outside the model, and so is
      a write that fails.  Every theorem holds for all behaviours of the
      two.
    Module [CPython] gives the behaviour of [json.loads] under CPython 3.11
    and module [Library] two behaviours of the conversion routine, so that
    the adapter can be run on concrete command lines. *)

From Stdlib Require Import String Ascii ZArith NArith Bool Lia.
From Stdlib Require Import DecimalString.
From Stdlib Require Import Floats.SpecFloat.
From Stdlib Require Import List.
Import ListNotations.

Set Implicit Arguments.
Set Warnings "-register-all".
Local Open Scope list_scope.

(** ** Strings *)

(** A Python [str] is a sequence of Unicode code points. *)
Definition pystr := list N.

(** [py "text"] is the [str] whose code points are the bytes of the literal. *)
Definition py (s : string) : pystr :=
  map N_of_ascii (list_ascii_of_string s).

(** JSON texts are written with apostrophes: in [jq "text"] every
    apostrophe of the literal stands for a double quote. *)
Definition jq (s : string) : pystr :=
  map (fun c => if N.eqb c 39 then 34%N else c) (py s).

Definition newline : pystr := [10%N].

Fixpoint str_eqb (a b : pystr) : bool :=
  match a, b with
  | [], [] => true
  | x :: a', y :: b' => N.eqb x y && str_eqb a' b'
  | _, _ => false
  end.

(** One lower-case hexadecimal digit. *)
Definition hex_digit (n : N) : N :=
  if N.ltb n 10 then (48 + n)%N else (87 + n)%N.

(** ** Values *)

(** The Python values [json.loads] can return.  A [dict] keeps its items in
    insertion order, with [str] keys. *)
Inductive value :=
| VNone
| VBool (b : bool)
| VInt (n : Z)
| VFloat (f : spec_float)
| VStr (s : pystr)
| VList (items : list value)
| VDict (items : list (pystr * value)).

Definition dict := list (pystr * value).

(** [d[key]] and [key in d] for a [dict]. *)
Fixpoint dict_lookup (d : dict) (key : pystr) : option value :=
  match d with
  | [] => None
  | (k, v) :: d' => if str_eqb k key then Some v else dict_lookup d' key
  end.

(** [d[key] = v]: an existing key keeps its place, a new one goes last. *)
Fixpoint dict_setitem (d : dict) (key : pystr) (v : value) : dict :=
  match d with
  | [] => [(key, v)]
  | (k, w) :: d' =>
      if str_eqb k key then (k, v) :: d' else (k, w) :: dict_setitem d' key v
  end.

(** Truth value testing, as [if author] does it. *)
Definition truthy (v : value) : bool :=
  match v with
  | VNone => false
  | VBool b => b
  | VInt n => negb (Z.eqb n 0)
  | VFloat (S754_zero _) => false
  | VFloat _ => true
  | VStr s => negb (Nat.eqb (length s) 0)
  | VList l => negb (Nat.eqb (length l) 0)
  | VDict d => negb (Nat.eqb (length d) 0)
  end.

(** [type(v).__name__]. *)
Definition type_name (v : value) : pystr :=
  match v with
  | VNone => py "NoneType"
  | VBool _ => py "bool"
  | VInt _ => py "int"
  | VFloat _ => py "float"
  | VStr _ => py "str"
  | VList _ => py "list"
  | VDict _ => py "dict"
  end.

(** ** Exceptions *)

(** An instance of [Exception]: its class and what [str(e)] gives. *)
Record exception := { exc_type : string; exc_str : pystr }.

Definition str (e : exception) : pystr := exc_str e.

(** What leaves a statement early.  [SystemExit] is raised by [sys.exit];
    it is not an instance of [Exception]. *)
Inductive raised :=
| Exc (e : exception)
| SystemExit (code : Z).

(** A call into a library returns or raises. *)
Inductive returns (A : Type) :=
| Returns (a : A)
| Raises (e : exception).
Arguments Raises {A} e.

(** [repr] of a [str]: CPython quotes it with apostrophes, or with double
    quotes when it holds an apostrophe and no double quote, and escapes the
    backslash, the chosen quote and the ASCII control characters.  Code
    points above 127 are copied, as CPython does with the printable ones;
    the script applies [repr] to the literals [pdf_path] and [epub_path]
    only (through [KeyError]). *)
Definition repr_str (s : pystr) : pystr :=
  let has c := existsb (N.eqb c) s in
  let quote := if has 39%N && negb (has 34%N) then 34%N else 39%N in
  let escape c :=
    if N.eqb c 92 || N.eqb c quote then [92%N; c]
    else if N.eqb c 9 then py "\t"
    else if N.eqb c 10 then py "\n"
    else if N.eqb c 13 then py "\r"
    else if N.ltb c 32 || N.eqb c 127 then
      py "\x" ++ [hex_digit (c / 16); hex_digit (c mod 16)]%N
    else [c] in
  [quote] ++ flat_map escape s ++ [quote].

(** [o[key]] with a [str] key.  [str(KeyError(key))] is [repr(key)]; the
    [TypeError] texts are those of CPython 3.11. *)
Definition getitem (o : value) (key : pystr) : returns value :=
  match o with
  | VDict d =>
      match dict_lookup d key with
      | Some v => Returns v
      | None => Raises {| exc_type := "KeyError"; exc_str := repr_str key |}
      end
  | VList _ =>
      Raises {| exc_type := "TypeError";
                exc_str := py "list indices must be integers or slices, not str" |}
  | VStr _ =>
      Raises {| exc_type := "TypeError";
                exc_str := py "string indices must be integers, not 'str'" |}
  | _ =>
      Raises {| exc_type := "TypeError";
                exc_str := py "'" ++ type_name o ++ py "' object is not subscriptable" |}
  end.

(** [o.get(key, default)]: only a [dict] has the method. *)
Definition get (o : value) (key : pystr) (default : value) : returns value :=
  match o with
  | VDict d =>
      match dict_lookup d key with
      | Some v => Returns v
      | None => Returns default
      end
  | _ =>
      Raises {| exc_type := "AttributeError";
                exc_str := py "'" ++ type_name o ++ py "' object has no attribute 'get'" |}
  end.

(** [int.__repr__]. *)
Definition int_repr (n : Z) : pystr :=
  py (NilZero.string_of_int (Z.to_int n)).

(** ** Floats *)

(** A Python [float] is a binary64 number, here a [spec_float] with 53 bits
    of precision. *)

(** [float(text)] for a decimal [m * 10 ^ e] with [m >= 0]: the nearest
    binary64, ties to even.  With a negative exponent the quotient is
    computed to at least 55 bits and the remainder tells on which side of
    the midpoint the exact value lies. *)
Definition float_of_decimal (negative : bool) (m : Z) (e : Z) : spec_float :=
  if (m <=? 0)%Z then S754_zero negative
  else if (0 <=? e)%Z then
    binary_normalize 53 1024 (if negative then - (m * 10 ^ e) else m * 10 ^ e)%Z 0 negative
  else
    let q := (10 ^ (- e))%Z in
    let k := Z.max 0 (56 + Z.log2 q - Z.log2 m)%Z in
    let n := (m * 2 ^ k)%Z in
    let r := (n mod q)%Z in
    let l := if (r =? 0)%Z then loc_Exact else loc_Inexact (Z.compare (2 * r) q) in
    binary_round_aux 53 1024 negative (n / q) (- k) l.

Definition float_eqb (x y : spec_float) : bool :=
  match x, y with
  | S754_finite s m e, S754_finite s' m' e' => Bool.eqb s s' && Pos.eqb m m' && Z.eqb e e'
  | _, _ => false
  end.

(** [num / den <? 10 ^ k], for positive [num] and [den]. *)
Definition below_pow10 (num den k : Z) : bool :=
  if (0 <=? k)%Z then (num <? 10 ^ k * den)%Z else (num * 10 ^ (- k) <? den)%Z.

(** The decimal point of [num / den]: the [k] with
    [10 ^ (k - 1) <= num / den < 10 ^ k], found from an estimate that is at
    most a few steps away. *)
Definition decimal_point (num den : Z) : Z :=
  let k0 := ((Z.log2 num - Z.log2 den) * 30103 / 100000 - 2)%Z in
  let fix up (fuel : nat) (k : Z) : Z :=
    match fuel with
    | O => k
    | S fuel' => if below_pow10 num den k then k else up fuel' (k + 1)%Z
    end in
  up 8%nat k0.

(** Drops the trailing zeros of a decimal [d * 10 ^ x]. *)
Fixpoint strip_zeros (fuel : nat) (d x : Z) : Z * Z :=
  match fuel with
  | O => (d, x)
  | S fuel' =>
      if (0 <? d)%Z && (d mod 10 =? 0)%Z then strip_zeros fuel' (d / 10)%Z (x + 1)%Z
      else (d, x)
  end.

(** The shortest decimal that reads back as the positive float [x], equal
    to [num / den], and the nearest to it of that length: the two decimals
    of [n] digits around the float are tried, with one more digit each
    round; when [fuel] runs out, at 17 digits, the nearest one reads
    back. *)
Fixpoint shortest_decimal (fuel : nat) (n : Z) (x : spec_float) (num den point : Z)
  : Z * Z :=
  let scale := (n - point)%Z in
  let snum := if (0 <=? scale)%Z then (num * 10 ^ scale)%Z else num in
  let sden := if (0 <=? scale)%Z then den else (den * 10 ^ (- scale))%Z in
  let lo := (snum / sden)%Z in
  let r := (snum mod sden)%Z in
  let hi := if (r =? 0)%Z then lo else (lo + 1)%Z in
  let reads d := float_eqb (float_of_decimal false d (- scale)) x in
  let nearest :=
    match Z.compare (2 * r) sden with
    | Lt => lo
    | Gt => hi
    | Eq => if Z.even lo then lo else hi
    end in
  match fuel with
  | O => (nearest, (- scale)%Z)
  | S fuel' =>
      if reads lo && reads hi then (nearest, (- scale)%Z)
      else if reads lo then (lo, (- scale)%Z)
      else if reads hi then (hi, (- scale)%Z)
      else shortest_decimal fuel' (n + 1)%Z x num den point
  end.

(** The [repr] format of CPython: the digits with the decimal point after
    the first [point] of them, in exponent notation when [point] is above
    16 or below -3. *)
Definition format_repr (digits : pystr) (point : Z) : pystr :=
  let n := Z.of_nat (length digits) in
  if (point <=? -4)%Z || (16 <? point)%Z then
    let x := (point - 1)%Z in
    let mantissa :=
      match digits with
      | [] => []
      | [d] => [d]
      | d :: rest => d :: 46%N :: rest
      end in
    let xs := int_repr (Z.abs x) in
    mantissa ++ py "e" ++ (if (x <? 0)%Z then py "-" else py "+")
    ++ (if (Z.abs x <? 10)%Z then py "0" else []) ++ xs
  else if (point <=? 0)%Z then
    py "0." ++ repeat 48%N (Z.to_nat (- point)) ++ digits
  else if (n <=? point)%Z then
    digits ++ repeat 48%N (Z.to_nat (point - n)) ++ py ".0"
  else
    firstn (Z.to_nat point) digits ++ py "." ++ skipn (Z.to_nat point) digits.

(** [float.__repr__]. *)
Definition float_repr (x : spec_float) : pystr :=
  match x with
  | S754_zero false => py "0.0"
  | S754_zero true => py "-0.0"
  | S754_infinity false => py "inf"
  | S754_infinity true => py "-inf"
  | S754_nan => py "nan"
  | S754_finite s m e =>
      let num := if (0 <=? e)%Z then (Zpos m * 2 ^ e)%Z else Zpos m in
      let den := if (0 <=? e)%Z then 1%Z else (2 ^ (- e))%Z in
      let point := decimal_point num den in
      let '(d, x10) := shortest_decimal 16 1 (S754_finite false m e) num den point in
      let '(d, x10) := strip_zeros 400 d x10 in
      let digits := int_repr d in
      (if s then py "-" else []) ++ format_repr digits (Z.of_nat (length digits) + x10)
  end.

(** ** [json.dumps] *)

(** ['\\u{0:04x}'.format(n)]. *)
Definition u_escape (n : N) : pystr :=
  py "\u" ++ [hex_digit ((n / 4096) mod 16); hex_digit ((n / 256) mod 16);
              hex_digit ((n / 16) mod 16); hex_digit (n mod 16)]%N.

(** The replacement of one code point in [py_encode_basestring_ascii]:
    [ESCAPE_DCT] first, then printable ASCII unchanged, then [\uXXXX], with
    a surrogate pair above the basic plane. *)
Definition escape_char (c : N) : pystr :=
  if N.eqb c 92 then py "\\"
  else if N.eqb c 34 then [92; 34]%N
  else if N.eqb c 8 then py "\b"
  else if N.eqb c 12 then py "\f"
  else if N.eqb c 10 then py "\n"
  else if N.eqb c 13 then py "\r"
  else if N.eqb c 9 then py "\t"
  else if N.leb 32 c && N.leb c 126 then [c]
  else if N.ltb c 65536 then u_escape c
  else
    let n := (c - 65536)%N in
    let s1 := N.lor 55296 (N.land (N.shiftr n 10) 1023) in
    let s2 := N.lor 56320 (N.land n 1023) in
    u_escape s1 ++ u_escape s2.

Definition encode_basestring_ascii (s : pystr) : pystr :=
  [34%N] ++ flat_map escape_char s ++ [34%N].

(** [floatstr] of [json.encoder], with [allow_nan] at its default. *)
Definition floatstr (o : spec_float) : pystr :=
  match o with
  | S754_nan => py "NaN"
  | S754_infinity false => py "Infinity"
  | S754_infinity true => py "-Infinity"
  | _ => float_repr o
  end.

(** [json.dumps(o)] with the default separators [', '] and [': ']. *)
Fixpoint json_dumps (o : value) : pystr :=
  match o with
  | VNone => py "null"
  | VBool true => py "true"
  | VBool false => py "false"
  | VInt n => int_repr n
  | VFloat f => floatstr f
  | VStr s => encode_basestring_ascii s
  | VList [] => py "[]"
  | VList (x :: xs) =>
      py "[" ++ json_dumps x
      ++ (fix rest (l : list value) : pystr :=
            match l with
            | [] => []
            | y :: l' => py ", " ++ json_dumps y ++ rest l'
            end) xs
      ++ py "]"
  | VDict [] => py "{}"
  | VDict ((k, v) :: d) =>
      py "{" ++ encode_basestring_ascii k ++ py ": " ++ json_dumps v
      ++ (fix rest (l : dict) : pystr :=
            match l with
            | [] => []
            | (k', v') :: l' =>
                py ", " ++ encode_basestring_ascii k' ++ py ": "
                ++ json_dumps v' ++ rest l'
            end) d
      ++ py "}"
  end.

(** ** The process: trace and statement monad *)

Inductive stream := stdout | stderr.

(** Modelled from the spec: [pdf_craft.BookMeta] is declared in the vendored
    library, not in the script; section 6 of the specification describes
    it as book metadata made of a title and an ordered list of author
    names, the two fields the script sets.  Building one does not raise. *)
Record BookMeta := { title : value; authors : list value }.

(** The keyword arguments of one call of [transform_epub]. *)
Record transform_epub_args := {
  pdf_path : value;
  epub_path : value;
  book_meta : BookMeta;
  ocr_size : pystr;
  includes_cover : bool;
  includes_footnotes : bool;
  ignore_pdf_errors : bool;
  ignore_ocr_errors : bool
}.

(** What the process does that its parent or the library can see. *)
Inductive event :=
| Write (to : stream) (text : pystr)
| Call (kwargs : transform_epub_args).

Definition trace := list event.

Inductive result (A : Type) :=
| Normal (a : A)
| Raise (r : raised).
Arguments Raise {A} r.

(** A statement: from the trace so far to how it ends and the trace then. *)
Definition M (A : Type) := trace -> result A * trace.

Definition ret {A} (a : A) : M A := fun t => (Normal a, t).

Definition bind {A B} (m : M A) (k : A -> M B) : M B :=
  fun t =>
    match m t with
    | (Normal a, t') => k a t'
    | (Raise r, t') => (Raise r, t')
    end.

Declare Scope py_scope.
Delimit Scope py_scope with python.
Notation "x <- m ;; k" := (bind m (fun x => k))
  (at level 61, m at next level, right associativity) : py_scope.
Notation "m ;; k" := (bind m (fun _ => k))
  (at level 61, right associativity) : py_scope.

Definition emit (e : event) : M unit := fun t => (Normal tt, t ++ [e]).

Definition raise {A} (e : exception) : M A := fun t => (Raise (Exc e), t).

(** The result of a library call as a statement. *)
Definition lift {A} (r : returns A) : M A :=
  match r with
  | Returns a => ret a
  | Raises e => raise e
  end.

(** [print(text, file=to)]: the text and a newline. *)
Definition print (to : stream) (text : pystr) : M unit :=
  emit (Write to (text ++ newline)).

(** [sys.exit(code)] raises [SystemExit(code)]. *)
Definition sys_exit {A} (code : Z) : M A := fun t => (Raise (SystemExit code), t).

(** [try: body except Exception as e: handler(e)].  Only an instance of
    [Exception] is handed to the handler. *)
Definition try_except_Exception {A} (body : M A) (handler : exception -> M A) : M A :=
  fun t =>
    match body t with
    | (Raise (Exc e), t') => handler e t'
    | other => other
    end.

(** [if cond: body], with nothing after it in the branch not taken. *)
Definition when (cond : bool) (body : M unit) : M unit :=
  if cond then body else ret tt.

(** [l[i]] on a list. *)
Definition list_getitem {A} (l : list A) (i : nat) : M A :=
  match nth_error l i with
  | Some a => ret a
  | None => raise {| exc_type := "IndexError"; exc_str := py "list index out of range" |}
  end.

(** ** The script *)

Section Adapter.

(** [json.loads]. *)
Variable json_loads : pystr -> returns value.

(** [pdf_craft.transform_epub]: the call is opaque, it returns some value
    or raises. *)
Variable transform_epub : transform_epub_args -> returns value.

(** The call is recorded in the trace, then the library decides. *)
Definition call_transform_epub (kwargs : transform_epub_args) : M value :=
  (emit (Call kwargs) ;; lift (transform_epub kwargs))%python.

(** [main()], with [sys.argv] as its argument. *)
Definition main (sys_argv : list pystr) : M unit :=
  (when (length sys_argv <? 2)%nat
     (print stdout
        (json_dumps (VDict [(py "success", VBool false);
                            (py "error", VStr (py "No arguments provided"))])) ;;
      sys_exit 1) ;;
   try_except_Exception
     (argv_1 <- list_getitem sys_argv 1 ;;
      args <- lift (json_loads argv_1) ;;
      pdf_path <- lift (getitem args (py "pdf_path")) ;;
      epub_path <- lift (getitem args (py "epub_path")) ;;
      title <- lift (get args (py "title") (VStr (py "Untitled"))) ;;
      author <- lift (get args (py "author") (VStr (py ""))) ;;
      let authors := if truthy author then [author] else [] in
      call_transform_epub
        {| pdf_path := pdf_path;
           epub_path := epub_path;
           book_meta := {| title := title; authors := authors |};
           ocr_size := py "small";
           includes_cover := true;
           includes_footnotes := true;
           ignore_pdf_errors := true;
           ignore_ocr_errors := true |} ;;
      print stdout (json_dumps (VDict [(py "success", VBool true)])) ;;
      sys_exit 0)
     (fun e =>
        print stderr
          (json_dumps (VDict [(py "success", VBool false);
                              (py "error", VStr (str e))])) ;;
        sys_exit 1))%python.

(** The process [python3 convert_pdf.py ...]: [main()] from an empty
    trace. *)
Definition run (sys_argv : list pystr) : result unit * trace :=
  main sys_argv [].

End Adapter.

(** The exit status the interpreter gives the process: 0 when the script
    runs to its end, the code of an uncaught [SystemExit], 1 after the
    traceback of an uncaught exception. *)
Definition exit_status (r : result unit) : Z :=
  match r with
  | Normal _ => 0
  | Raise (SystemExit code) => code
  | Raise (Exc _) => 1
  end.

(** An exception nobody caught: the interpreter prints its traceback. *)
Definition uncaught (r : result unit) : option exception :=
  match r with
  | Raise (Exc e) => Some e
  | _ => None
  end.

(** The texts written to one stream, in order. *)
Fixpoint written (to : stream) (t : trace) : list pystr :=
  match t with
  | [] => []
  | Write stdout text :: t' =>
      match to with stdout => text :: written to t' | stderr => written to t' end
  | Write stderr text :: t' =>
      match to with stderr => text :: written to t' | stdout => written to t' end
  | Call _ :: t' => written to t'
  end.

(** The calls of [transform_epub], in order. *)
Fixpoint calls (t : trace) : list transform_epub_args :=
  match t with
  | [] => []
  | Call kwargs :: t' => kwargs :: calls t'
  | Write _ _ :: t' => calls t'
  end.

(** All writes, whatever the stream. *)
Fixpoint writes (t : trace) : list (stream * pystr) :=
  match t with
  | [] => []
  | Write to text :: t' => (to, text) :: writes t'
  | Call _ :: t' => writes t'
  end.

(** ** What the parent process observes *)

Record verdict := {
  stdout_text : list pystr;
  stderr_text : list pystr;
  exit_code : Z
}.

Definition observe (r : result unit * trace) : verdict :=
  {| stdout_text := written stdout (snd r);
     stderr_text := written stderr (snd r);
     exit_code := exit_status (fst r) |}.

(** The three response lines. *)
Definition success_line : pystr :=
  jq "{'success': true}" ++ newline.

Definition no_arguments_line : pystr :=
  jq "{'success': false, 'error': 'No arguments provided'}" ++ newline.

Definition failure_line (message : pystr) : pystr :=
  jq "{'success': false, 'error': " ++ encode_basestring_ascii message
  ++ py "}" ++ newline.

Definition success_verdict : verdict :=
  {| stdout_text := [success_line]; stderr_text := []; exit_code := 0 |}.

Definition no_arguments_verdict : verdict :=
  {| stdout_text := [no_arguments_line]; stderr_text := []; exit_code := 1 |}.

Definition failure_verdict (message : pystr) : verdict :=
  {| stdout_text := []; stderr_text := [failure_line message]; exit_code := 1 |}.

(** The two ways the [try] statement ends, after the events [before]. *)
Definition succeed (before : trace) : result unit * trace :=
  (Raise (SystemExit 0), before ++ [Write stdout success_line]).

Definition fail_with (message : pystr) (before : trace) : result unit * trace :=
  (Raise (SystemExit 1), before ++ [Write stderr (failure_line message)]).

(** The keys the script reads. *)
Definition request_keys : list pystr :=
  [py "pdf_path"; py "epub_path"; py "title"; py "author"].

(** The call the script builds from a request [d] that holds [pdf_path]
    and [epub_path]. *)
Definition call_of (d : dict) (p q : value) : transform_epub_args :=
  let title :=
    match dict_lookup d (py "title") with
    | Some t => t
    | None => VStr (py "Untitled")
    end in
  let author :=
    match dict_lookup d (py "author") with
    | Some a => a
    | None => VStr (py "")
    end in
  {| pdf_path := p;
     epub_path := q;
     book_meta := {| title := title;
                     authors := if truthy author then [author] else [] |};
     ocr_size := py "small";
     includes_cover := true;
     includes_footnotes := true;
     ignore_pdf_errors := true;
     ignore_ocr_errors := true |}.

(** How the script ends once [transform_epub] has been called with
    [kwargs], for a given behaviour of the library. *)
Definition conclude (transform_epub : transform_epub_args -> returns value)
    (kwargs : transform_epub_args) : result unit * trace :=
  match transform_epub kwargs with
  | Returns _ => succeed [Call kwargs]
  | Raises e => fail_with (str e) [Call kwargs]
  end.

(** The causes of failure named by the specification, each with the text
    of the exception it raises: the argument is not JSON, the decoded
    object lacks a required key, or the conversion routine raises. *)
Inductive failure_cause
    (json_loads : pystr -> returns value)
    (transform_epub : transform_epub_args -> returns value)
  : list pystr -> pystr -> Prop :=
| malformed_json prog s rest e :
    json_loads s = Raises e ->
    failure_cause json_loads transform_epub (prog :: s :: rest) (str e)
| missing_pdf_path prog s rest d :
    json_loads s = Returns (VDict d) ->
    dict_lookup d (py "pdf_path") = None ->
    failure_cause json_loads transform_epub (prog :: s :: rest) (py "'pdf_path'")
| missing_epub_path prog s rest d p :
    json_loads s = Returns (VDict d) ->
    dict_lookup d (py "pdf_path") = Some p ->
    dict_lookup d (py "epub_path") = None ->
    failure_cause json_loads transform_epub (prog :: s :: rest) (py "'epub_path'")
| conversion_raised sys_argv kwargs e :
    In (Call kwargs) (snd (run json_loads transform_epub sys_argv)) ->
    transform_epub kwargs = Raises e ->
    failure_cause json_loads transform_epub sys_argv (str e).

(** ** One behaviour of [json.loads] *)

(** [json.loads] as CPython 3.11 runs it on a [str]: the scanner
    ([scan_once], [scanstring], the object and array parsers and the number
    matcher) and [JSONDecoder.decode], with the texts and positions of
    their errors.  Positions count code points from 0. *)
Module CPython.

Definition is_whitespace (c : N) : bool :=
  N.eqb c 32 || N.eqb c 9 || N.eqb c 10 || N.eqb c 13.

Definition is_digit (c : N) : bool := N.leb 48 c && N.leb c 57.

(** [s[idx]], when [idx] is inside [s]. *)
Definition char_at (s : pystr) (idx : nat) : option N := nth_error s idx.

Definition char_is (s : pystr) (idx : nat) (c : N) : bool :=
  match char_at s idx with
  | Some c' => N.eqb c' c
  | None => false
  end.

(** [s[i:j]]. *)
Definition slice (s : pystr) (i j : nat) : pystr := firstn (j - i) (skipn i s).

(** How many leading code points of [l] satisfy [p]. *)
Fixpoint span (p : N -> bool) (l : pystr) : nat :=
  match l with
  | c :: l' => if p c then S (span p l') else 0
  | [] => 0
  end.

(** The scanner's loop [while idx <= end_idx and IS_WHITESPACE(s[idx]): idx++]. *)
Definition skip_whitespace (s : pystr) (idx : nat) : nat :=
  idx + span is_whitespace (skipn idx s).

Definition decimal (n : nat) : pystr := int_repr (Z.of_nat n).

(** [JSONDecodeError(msg, doc, pos)]: the text names the line, the column
    and the position. *)
Definition JSONDecodeError (msg : string) (doc : pystr) (pos : nat) : exception :=
  let before := firstn pos doc in
  let lineno := S (length (filter (N.eqb 10) before)) in
  let colno := S (fold_left (fun n c => if N.eqb c 10 then 0 else S n) before 0) in
  {| exc_type := "JSONDecodeError";
     exc_str := py msg ++ py ": line " ++ decimal lineno ++ py " column "
                ++ decimal colno ++ py " (char " ++ decimal pos ++ py ")" |}.

(** What a scanning function gives: a value and the position after it, the
    [StopIteration] that [raw_decode] turns into an error, or an exception. *)
Inductive scan (A : Type) :=
| Scanned (a : A) (next_idx : nat)
| StopIteration (idx : nat)
| Failed (e : exception).
Arguments StopIteration {A} idx.
Arguments Failed {A} e.

Definition hex_value (c : N) : option N :=
  if N.leb 48 c && N.leb c 57 then Some (c - 48)%N
  else if N.leb 97 c && N.leb c 102 then Some (c - 87)%N
  else if N.leb 65 c && N.leb c 70 then Some (c - 55)%N
  else None.

(** The four hexadecimal digits [s[next:next+4]] of a [\u] escape. *)
Definition hex4 (s : pystr) (next : nat) : option N :=
  match slice s next (next + 4) with
  | [a; b; c; d] =>
      match hex_value a, hex_value b, hex_value c, hex_value d with
      | Some a, Some b, Some c, Some d => Some (((a * 16 + b) * 16 + c) * 16 + d)%N
      | _, _, _, _ => None
      end
  | _ => None
  end.

(** The character a backslash escape other than [\u] stands for. *)
Definition backslash (c : N) : option N :=
  if N.eqb c 34 then Some 34%N
  else if N.eqb c 92 then Some 92%N
  else if N.eqb c 47 then Some 47%N
  else if N.eqb c 98 then Some 8%N
  else if N.eqb c 102 then Some 12%N
  else if N.eqb c 110 then Some 10%N
  else if N.eqb c 114 then Some 13%N
  else if N.eqb c 116 then Some 9%N
  else None.

(** The first quote, backslash or control character of [l], with the text
    before it. *)
Fixpoint chunk (l : pystr) : option (pystr * N) :=
  match l with
  | [] => None
  | c :: l' =>
      if N.eqb c 34 || N.eqb c 92 || N.leb c 31 then Some ([], c)
      else match chunk l' with
           | Some (content, terminator) => Some (c :: content, terminator)
           | None => None
           end
  end.

(** [scanstring(s, end)] in strict mode; [begin] is the opening quote.  One
    round of the loop reads a chunk and the escape after it; [fuel] bounds
    the rounds by the length of [s]. *)
Fixpoint scanstring_loop (fuel : nat) (s : pystr) (begin end_ : nat) (chunks : pystr)
  : scan pystr :=
  match fuel with
  | O => Failed (JSONDecodeError "Unterminated string starting at" s begin)
  | S fuel' =>
      match chunk (skipn end_ s) with
      | None => Failed (JSONDecodeError "Unterminated string starting at" s begin)
      | Some (content, terminator) =>
          let next := end_ + length content in
          let chunks := chunks ++ content in
          if N.eqb terminator 34 then Scanned chunks (S next)
          else if negb (N.eqb terminator 92) then
            Failed (JSONDecodeError "Invalid control character at" s next)
          else
            let next := S next in
            match char_at s next with
            | None => Failed (JSONDecodeError "Unterminated string starting at" s begin)
            | Some c =>
                if negb (N.eqb c 117) then
                  match backslash c with
                  | Some c' => scanstring_loop fuel' s begin (S next) (chunks ++ [c'])
                  | None => Failed (JSONDecodeError "Invalid \escape" s (next - 1))
                  end
                else
                  let next := S next in
                  let end_ := next + 4 in
                  if length s <=? end_ then
                    Failed (JSONDecodeError "Invalid \uXXXX escape" s (next - 1))
                  else
                    match hex4 s next with
                    | None => Failed (JSONDecodeError "Invalid \uXXXX escape" s (end_ - 5))
                    | Some c =>
                        if N.leb 55296 c && N.leb c 56319 && (end_ + 6 <? length s)
                           && char_is s end_ 92 && char_is s (S end_) 117 then
                          match hex4 s (end_ + 2) with
                          | None =>
                              Failed (JSONDecodeError "Invalid \uXXXX escape" s (end_ + 6 - 5))
                          | Some c2 =>
                              if N.leb 56320 c2 && N.leb c2 57343 then
                                let joined :=
                                  (65536 + N.lor (N.shiftl (N.land c 1023) 10)
                                                 (N.land c2 1023))%N in
                                scanstring_loop fuel' s begin (end_ + 6) (chunks ++ [joined])
                              else scanstring_loop fuel' s begin end_ (chunks ++ [c])
                          end
                        else scanstring_loop fuel' s begin end_ (chunks ++ [c])
                    end
            end
      end
  end.

Definition scanstring (s : pystr) (end_ : nat) : scan pystr :=
  scanstring_loop (length s) s (end_ - 1) end_ [].

(** The value of a run of decimal digits. *)
Definition digits_value (l : pystr) : Z :=
  fold_left (fun n c => (10 * n + Z.of_N (c - 48))%Z) l 0%Z.

(** [int(text)] for an optional sign and digits.  A text of more than 4300
    digits is refused. *)
Definition parse_int (negative : bool) (digits : pystr) : returns value :=
  if 4300 <? length digits then
    Raises {| exc_type := "ValueError";
              exc_str := py "Exceeds the limit (4300 digits) for integer string conversion: value has "
                         ++ decimal (length digits)
                         ++ py " digits; use sys.set_int_max_str_digits() to increase the limit" |}
  else Returns (VInt (if negative then - digits_value digits else digits_value digits)).

(** [float(text)] for the text of a JSON number: the digits before and
    after the point and the exponent. *)
Definition parse_float (negative : bool) (int_digits frac_digits : pystr)
    (exp_negative : bool) (exp_digits : pystr) : value :=
  let m := digits_value (int_digits ++ frac_digits) in
  let x := digits_value exp_digits in
  let e := ((if exp_negative then - x else x) - Z.of_nat (length frac_digits))%Z in
  VFloat (float_of_decimal negative m e).

(** The number matcher at [start]: an optional minus, [0] or a run of digits
    that does not start with [0], then a fraction if a digit follows the
    point, then an exponent if it has a digit. *)
Definition match_number (s : pystr) (start : nat) : scan value :=
  let negative := char_is s start 45 in
  let idx := if negative then S start else start in
  match char_at s idx with
  | None => StopIteration start
  | Some c =>
      if negb (is_digit c) then StopIteration start
      else
        let int_digits :=
          if N.eqb c 48 then [c] else firstn (span is_digit (skipn idx s)) (skipn idx s) in
        let idx := idx + length int_digits in
        let frac_digits :=
          if char_is s idx 46 then
            firstn (span is_digit (skipn (S idx) s)) (skipn (S idx) s)
          else [] in
        let idx := if Nat.eqb (length frac_digits) 0 then idx else S idx + length frac_digits in
        let has_e := char_is s idx 101 || char_is s idx 69 in
        let exp_negative := has_e && char_is s (S idx) 45 in
        let exp_signed := has_e && (char_is s (S idx) 45 || char_is s (S idx) 43) in
        let exp_start := if exp_signed then S (S idx) else S idx in
        let exp_digits :=
          if has_e then firstn (span is_digit (skipn exp_start s)) (skipn exp_start s)
          else [] in
        let is_exp := negb (Nat.eqb (length exp_digits) 0) in
        let idx := if is_exp then exp_start + length exp_digits else idx in
        if is_exp || negb (Nat.eqb (length frac_digits) 0) then
          Scanned (parse_float negative int_digits frac_digits exp_negative exp_digits) idx
        else
          match parse_int negative int_digits with
          | Returns v => Scanned v idx
          | Raises e => Failed e
          end
  end.

(** The nesting of objects and arrays the scanner accepts: the recursion
    limit of 1000 less the frames in use when [main] calls [json.loads]. *)
Definition max_nesting : nat := 994.

Definition RecursionError (what : string) : exception :=
  {| exc_type := "RecursionError";
     exc_str := py "maximum recursion depth exceeded while decoding a JSON "
                ++ py what ++ py " from a unicode string" |}.

Section Containers.

(** The scanner one level further in. *)
Variable scan_once : pystr -> nat -> scan value.

(** The loop of the object parser, at the position where a key must start.
    Each round reads [key : value] and the comma or brace after it. *)
Fixpoint object_loop (fuel : nat) (s : pystr) (idx : nat) (rval : dict) : scan value :=
  match fuel with
  | O => StopIteration idx
  | S fuel' =>
      if negb (char_is s idx 34) then
        Failed (JSONDecodeError "Expecting property name enclosed in double quotes" s idx)
      else
        match scanstring s (S idx) with
        | StopIteration i => StopIteration i
        | Failed e => Failed e
        | Scanned key next_idx =>
            let idx := skip_whitespace s next_idx in
            if negb (char_is s idx 58) then
              Failed (JSONDecodeError "Expecting ':' delimiter" s idx)
            else
              let idx := skip_whitespace s (S idx) in
              match scan_once s idx with
              | StopIteration i => StopIteration i
              | Failed e => Failed e
              | Scanned val next_idx =>
                  let rval := dict_setitem rval key val in
                  let idx := skip_whitespace s next_idx in
                  if char_is s idx 125 then Scanned (VDict rval) (S idx)
                  else if negb (char_is s idx 44) then
                    Failed (JSONDecodeError "Expecting ',' delimiter" s idx)
                  else object_loop fuel' s (skip_whitespace s (S idx)) rval
              end
        end
  end.

(** The object parser, after the opening brace. *)
Definition parse_object (s : pystr) (idx : nat) : scan value :=
  let idx := skip_whitespace s idx in
  if char_is s idx 125 then Scanned (VDict []) (S idx)
  else object_loop (length s) s idx [].

(** The loop of the array parser, at the position where an item must start. *)
Fixpoint array_loop (fuel : nat) (s : pystr) (idx : nat) (rval : list value) : scan value :=
  match fuel with
  | O => StopIteration idx
  | S fuel' =>
      match scan_once s idx with
      | StopIteration i => StopIteration i
      | Failed e => Failed e
      | Scanned val next_idx =>
          let rval := rval ++ [val] in
          let idx := skip_whitespace s next_idx in
          if char_is s idx 93 then Scanned (VList rval) (S idx)
          else if negb (char_is s idx 44) then
            Failed (JSONDecodeError "Expecting ',' delimiter" s idx)
          else array_loop fuel' s (skip_whitespace s (S idx)) rval
      end
  end.

(** The array parser, after the opening bracket. *)
Definition parse_array (s : pystr) (idx : nat) : scan value :=
  let idx := skip_whitespace s idx in
  if char_is s idx 93 then Scanned (VList []) (S idx)
  else array_loop (length s) s idx [].

End Containers.

(** [scan_once(s, idx)], with [depth] levels of nesting left. *)
Fixpoint scan_once (depth : nat) (s : pystr) (idx : nat) {struct depth} : scan value :=
  match char_at s idx with
  | None => StopIteration idx
  | Some c =>
      if N.eqb c 34 then
        match scanstring s (S idx) with
        | Scanned text next_idx => Scanned (VStr text) next_idx
        | StopIteration i => StopIteration i
        | Failed e => Failed e
        end
      else if N.eqb c 123 then
        match depth with
        | O => Failed (RecursionError "object")
        | S depth' => parse_object (scan_once depth') s (S idx)
        end
      else if N.eqb c 91 then
        match depth with
        | O => Failed (RecursionError "array")
        | S depth' => parse_array (scan_once depth') s (S idx)
        end
      else if str_eqb (slice s idx (idx + 4)) (py "null") then Scanned VNone (idx + 4)
      else if str_eqb (slice s idx (idx + 4)) (py "true") then Scanned (VBool true) (idx + 4)
      else if str_eqb (slice s idx (idx + 5)) (py "false") then Scanned (VBool false) (idx + 5)
      else if str_eqb (slice s idx (idx + 3)) (py "NaN") then Scanned (VFloat S754_nan) (idx + 3)
      else if str_eqb (slice s idx (idx + 8)) (py "Infinity") then
        Scanned (VFloat (S754_infinity false)) (idx + 8)
      else if str_eqb (slice s idx (idx + 9)) (py "-Infinity") then
        Scanned (VFloat (S754_infinity true)) (idx + 9)
      else match_number s idx
  end.

(** [JSONDecoder.decode]: one value between optional whitespace, and
    nothing after it. *)
Definition decode (s : pystr) : returns value :=
  match scan_once max_nesting s (skip_whitespace s 0) with
  | StopIteration idx => Raises (JSONDecodeError "Expecting value" s idx)
  | Failed e => Raises e
  | Scanned obj end_ =>
      let end_ := skip_whitespace s end_ in
      if Nat.eqb end_ (length s) then Returns obj
      else Raises (JSONDecodeError "Extra data" s end_)
  end.

(** [json.loads(s)] for a [str]. *)
Definition loads (s : pystr) : returns value :=
  match s with
  | 65279%N :: _ =>
      Raises (JSONDecodeError "Unexpected UTF-8 BOM (decode using utf-8-sig)" s 0)
  | _ => decode s
  end.

End CPython.

(** ** Two behaviours of the conversion routine *)

Module Library.

(** The conversion goes through; the routine returns [None]. *)
Definition converts (kwargs : transform_epub_args) : returns value :=
  Returns VNone.

(** The source file is missing. *)
Definition no_such_file (kwargs : transform_epub_args) : returns value :=
  Raises {| exc_type := "FileNotFoundError";
            exc_str := py "[Errno 2] No such file or directory: 'missing.pdf'" |}.

End Library.

(** ** Sample command lines *)

Definition script : pystr := py "convert_pdf.py".

Definition sample_request : pystr :=
  jq "{'pdf_path': 'book.pdf', 'epub_path': 'book.epub', 'author': 'Jane Doe'}".

Definition sample_call : transform_epub_args :=
  {| pdf_path := VStr (py "book.pdf");
     epub_path := VStr (py "book.epub");
     book_meta := {| title := VStr (py "Untitled");
                     authors := [VStr (py "Jane Doe")] |};
     ocr_size := py "small";
     includes_cover := true;
     includes_footnotes := true;
     ignore_pdf_errors := true;
     ignore_ocr_errors := true |}.

(** The items of the object a request decodes to. *)
Definition decoded (s : pystr) : dict :=
  match CPython.loads s with
  | Returns (VDict d) => d
  | _ => []
  end.

Definition bare_request : pystr :=
  jq "{'pdf_path': 'book.pdf', 'epub_path': 'book.epub'}".

Definition noisy_request : pystr :=
  jq "{'ocr_size': 'large', 'epub_path': 'book.epub', 'includes_cover': false, 'author': 'Jane Doe', 'pdf_path': 'book.pdf', 'debug': [1, 2.5, null]}".

Definition titled_request : pystr :=
  jq "{'pdf_path': 'book.pdf', 'epub_path': 'book.epub', 'title': 'Dune'}".

(** The five policy options of a call. *)
Definition fixed_policy (kwargs : transform_epub_args) : Prop :=
  ocr_size kwargs = py "small"
  /\ includes_cover kwargs = true
  /\ includes_footnotes kwargs = true
  /\ ignore_pdf_errors kwargs = true
  /\ ignore_ocr_errors kwargs = true.

(** * Properties of the adapter *)

Unset Implicit Arguments.

(** Unfolds the statement monad. *)
Ltac run_script :=
  unfold run, main, when, call_transform_epub, list_getitem, try_except_Exception,
    print, emit, sys_exit, lift, raise, bind, ret;
  cbn [length Nat.ltb Nat.leb nth_error app].

Lemma dumps_success :
  json_dumps (VDict [(py "success", VBool true)]) ++ newline = success_line.
Proof. reflexivity. Qed.

Lemma dumps_no_arguments :
  json_dumps
    (VDict [(py "success", VBool false);
            (py "error", VStr (py "No arguments provided"))]) ++ newline
  = no_arguments_line.
Proof. reflexivity. Qed.

Lemma dumps_failure message :
  json_dumps
    (VDict [(py "success", VBool false); (py "error", VStr message)]) ++ newline
  = failure_line message.
Proof.
  unfold failure_line. cbn [json_dumps].
  repeat rewrite <- app_assoc. reflexivity.
Qed.

(** ** How a run ends, case by case *)

Section Run.

Variable json_loads : pystr -> returns value.
Variable transform_epub : transform_epub_args -> returns value.

Abbreviation process := (run json_loads transform_epub).
Abbreviation ending := (conclude transform_epub).

Lemma run_without_argument sys_argv :
  (length sys_argv < 2)%nat ->
  process sys_argv = (Raise (SystemExit 1), [Write stdout no_arguments_line]).
Proof.
  intros H. destruct sys_argv as [|prog [|s rest]]; cbn in H; try lia;
    run_script; rewrite dumps_no_arguments; reflexivity.
Qed.

Lemma run_decoder_raises prog s rest e :
  json_loads s = Raises e ->
  process (prog :: s :: rest) = fail_with (str e) [].
Proof.
  intros H. run_script. rewrite H. rewrite dumps_failure. reflexivity.
Qed.

Lemma run_getitem_raises prog s rest args e :
  json_loads s = Returns args ->
  getitem args (py "pdf_path") = Raises e ->
  process (prog :: s :: rest) = fail_with (str e) [].
Proof.
  intros H G. run_script. rewrite H, G. rewrite dumps_failure. reflexivity.
Qed.

Lemma run_missing_pdf_path prog s rest d :
  json_loads s = Returns (VDict d) ->
  dict_lookup d (py "pdf_path") = None ->
  process (prog :: s :: rest) = fail_with (py "'pdf_path'") [].
Proof.
  intros H G.
  apply run_getitem_raises
    with (args := VDict d)
         (e := {| exc_type := "KeyError"; exc_str := py "'pdf_path'" |}); trivial.
  unfold getitem. rewrite G. reflexivity.
Qed.

Lemma run_missing_epub_path prog s rest d p :
  json_loads s = Returns (VDict d) ->
  dict_lookup d (py "pdf_path") = Some p ->
  dict_lookup d (py "epub_path") = None ->
  process (prog :: s :: rest) = fail_with (py "'epub_path'") [].
Proof.
  intros H G1 G2. run_script. rewrite H. unfold getitem. rewrite G1, G2.
  rewrite dumps_failure. reflexivity.
Qed.

Lemma run_request prog s rest d p q :
  json_loads s = Returns (VDict d) ->
  dict_lookup d (py "pdf_path") = Some p ->
  dict_lookup d (py "epub_path") = Some q ->
  process (prog :: s :: rest) = ending (call_of d p q).
Proof.
  intros H G1 G2. run_script. rewrite H. unfold getitem, get. rewrite G1, G2.
  unfold conclude, call_of, succeed, fail_with.
  destruct (dict_lookup d (py "title")), (dict_lookup d (py "author"));
    cbn [app];
    match goal with
    | |- context [transform_epub ?k] => destruct (transform_epub k)
    end;
    rewrite ?dumps_failure, ?dumps_success; reflexivity.
Qed.

(** A decoded value that is not a [dict] cannot be subscripted with a
    [str]. *)
Lemma getitem_not_dict (v : value) (key : pystr) :
  (forall d, v <> VDict d) ->
  exists e, getitem v key = Raises e /\ exc_type e = "TypeError"%string.
Proof.
  intros H. destruct v; try (eexists; split; reflexivity).
  now destruct (H items).
Qed.

(** Every run ends in one of three ways. *)
Lemma run_endings sys_argv :
  ((length sys_argv < 2)%nat /\
   process sys_argv = (Raise (SystemExit 1), [Write stdout no_arguments_line]))
  \/ (exists e, process sys_argv = fail_with (str e) [])
  \/ (exists d p q, process sys_argv = ending (call_of d p q)).
Proof.
  destruct sys_argv as [|prog [|s rest]].
  - left. split; [cbn; lia | apply run_without_argument; cbn; lia].
  - left. split; [cbn; lia | apply run_without_argument; cbn; lia].
  - right. destruct (json_loads s) as [args|e] eqn:H.
    + destruct args as [ | b | n | f | t | l | d ];
        try (left; eexists; eapply run_getitem_raises; [exact H | reflexivity]).
      destruct (dict_lookup d (py "pdf_path")) as [p|] eqn:G1.
      * destruct (dict_lookup d (py "epub_path")) as [q|] eqn:G2.
        -- right. exists d, p, q. now apply run_request.
        -- left. exists {| exc_type := "KeyError"; exc_str := py "'epub_path'" |}.
           now apply run_missing_epub_path with (d := d) (p := p).
      * left. exists {| exc_type := "KeyError"; exc_str := py "'pdf_path'" |}.
        now apply run_missing_pdf_path with (d := d).
    + left. exists e. now apply run_decoder_raises.
Qed.

(** What can be read off each ending. *)
Lemma observe_fail_with message :
  observe (fail_with message []) = failure_verdict message.
Proof. reflexivity. Qed.

Lemma observe_conclude kwargs :
  observe (ending kwargs)
  = match transform_epub kwargs with
    | Returns _ => success_verdict
    | Raises e => failure_verdict (str e)
    end.
Proof. unfold conclude. now destruct (transform_epub kwargs). Qed.

Lemma calls_conclude kwargs : calls (snd (ending kwargs)) = [kwargs].
Proof. unfold conclude. now destruct (transform_epub kwargs). Qed.

(** The call in the trace of a run, when there is one, decides the
    ending. *)
Lemma run_called sys_argv kwargs :
  In (Call kwargs) (snd (process sys_argv)) ->
  process sys_argv = ending kwargs.
Proof.
  intros H. destruct (run_endings sys_argv) as [[_ E] | [[e E] | (d & p & q & E)]];
    rewrite E in H |- *; cbn in H.
  - destruct H as [H | []]; discriminate.
  - destruct H as [H | []]; discriminate.
  - unfold conclude in H. destruct (transform_epub (call_of d p q)); cbn in H;
      destruct H as [H | [H | []]]; try discriminate; now inversion H.
Qed.

End Run.

(** ** Sample runs *)

(** The success line, code point by code point. *)
Example success_line_code_points :
  jq "{'success': true}"
  = [123; 34; 115; 117; 99; 99; 101; 115; 115; 34; 58; 32; 116; 114; 117; 101; 125]%N.
Proof. reflexivity. Qed.

Example run_sample_request :
  run CPython.loads Library.converts [script; sample_request]
  = (Raise (SystemExit 0), [Call sample_call; Write stdout success_line]).
Proof. vm_compute. reflexivity. Qed.

Example run_conversion_failure :
  run CPython.loads Library.no_such_file [script; sample_request]
  = (Raise (SystemExit 1),
     [Call sample_call;
      Write stderr
        (jq "{'success': false, 'error': '[Errno 2] No such file or directory: "
         ++ py "'missing.pdf'" ++ jq "'}" ++ newline)]).
Proof. vm_compute. reflexivity. Qed.

Example run_truncated_json :
  run CPython.loads Library.converts [script; jq "{'pdf_path': "]
  = (Raise (SystemExit 1),
     [Write stderr
        (jq "{'success': false, 'error': 'Expecting value: line 1 column 14 (char 13)'}"
         ++ newline)]).
Proof. vm_compute. reflexivity. Qed.

Example run_missing_key :
  run CPython.loads Library.converts [script; jq "{'epub_path': 'book.epub'}"]
  = (Raise (SystemExit 1),
     [Write stderr
        (jq "{'success': false, 'error': '" ++ py "'pdf_path'" ++ jq "'}" ++ newline)]).
Proof. vm_compute. reflexivity. Qed.

Example run_number :
  run CPython.loads Library.converts [script; py "42"]
  = (Raise (SystemExit 1),
     [Write stderr
        (jq "{'success': false, 'error': '" ++ py "'int' object is not subscriptable"
         ++ jq "'}" ++ newline)]).
Proof. vm_compute. reflexivity. Qed.

(** An exception text with a quote, a newline and a character outside ASCII
    is escaped by [json.dumps]. *)
Example failure_line_escapes :
  failure_line (jq "no 'x'" ++ newline ++ [233%N])
  = jq "{'success': false, 'error': 'no \'x\'\n\u00e9'}" ++ newline.
Proof. vm_compute. reflexivity. Qed.

(** ** The response on each path *)

(** C1.  Whenever the conversion routine is called and returns, whatever
    it returns, the process writes the single line [{"success": true}] to
    standard output, nothing to standard error, and leaves through
    [sys.exit(0)]: its exit status is 0. *)
Theorem success_response
    (json_loads : pystr -> returns value)
    (transform_epub : transform_epub_args -> returns value)
    (sys_argv : list pystr) (kwargs : transform_epub_args) (v : value) :
  In (Call kwargs) (snd (run json_loads transform_epub sys_argv)) ->
  transform_epub kwargs = Returns v ->
  observe (run json_loads transform_epub sys_argv)
  = {| stdout_text := [jq "{'success': true}" ++ newline];
       stderr_text := [];
       exit_code := 0 |}
  /\ fst (run json_loads transform_epub sys_argv) = Raise (SystemExit 0).
Proof.
  intros Hcall Hret. rewrite (run_called _ _ _ _ Hcall).
  unfold conclude. rewrite Hret. split; reflexivity.
Qed.

Lemma success_response_witness :
  In (Call sample_call)
     (snd (run CPython.loads Library.converts [script; sample_request]))
  /\ Library.converts sample_call = Returns VNone
  /\ observe (run CPython.loads Library.converts [script; sample_request])
     = {| stdout_text := [jq "{'success': true}" ++ newline];
          stderr_text := [];
          exit_code := 0 |}.
Proof.
  assert (H : In (Call sample_call)
                 (snd (run CPython.loads Library.converts [script; sample_request])))
    by (vm_compute; left; reflexivity).
  split; [exact H | split; [reflexivity |]].
  exact (proj1 (success_response CPython.loads Library.converts
                  [script; sample_request] sample_call VNone H eq_refl)).
Defined.

(** C2.  Each cause of failure (malformed JSON, a missing [pdf_path] or
    [epub_path], an exception of the conversion routine) makes the process
    write the single line [{"success": false, "error": <text>}] to
    standard error, nothing to standard output, and exit with status 1.
    What is observed depends on the text of the exception only: any other
    failing run with the same text, whatever its cause, is observed to be
    the same. *)
Theorem failure_response
    (json_loads : pystr -> returns value)
    (transform_epub : transform_epub_args -> returns value)
    (sys_argv : list pystr) (message : pystr) :
  failure_cause json_loads transform_epub sys_argv message ->
  observe (run json_loads transform_epub sys_argv)
  = {| stdout_text := [];
       stderr_text := [jq "{'success': false, 'error': "
                       ++ encode_basestring_ascii message ++ py "}" ++ newline];
       exit_code := 1 |}
  /\ forall json_loads' transform_epub' sys_argv',
       failure_cause json_loads' transform_epub' sys_argv' message ->
       observe (run json_loads' transform_epub' sys_argv')
       = observe (run json_loads transform_epub sys_argv).
Proof.
  assert (one : forall jl te argv,
             failure_cause jl te argv message ->
             observe (run jl te argv) = failure_verdict message).
  { intros jl te argv H. destruct H as [prog s rest e H | prog s rest d H G
                                      | prog s rest d p H G1 G2 | argv kw e H G].
    - now rewrite (run_decoder_raises _ te prog _ rest _ H).
    - now rewrite (run_missing_pdf_path _ te prog _ rest _ H G).
    - now rewrite (run_missing_epub_path _ te prog _ rest _ _ H G1 G2).
    - rewrite (run_called _ _ _ _ H), observe_conclude, G. reflexivity. }
  intros H. split.
  - apply (one _ _ _ H).
  - intros jl te argv H'. now rewrite (one _ _ _ H'), (one _ _ _ H).
Qed.

Lemma failure_response_witness :
  observe (run CPython.loads Library.converts [script; jq "{'pdf_path': "])
  = failure_verdict (py "Expecting value: line 1 column 14 (char 13)")
  /\ observe (run CPython.loads Library.converts [script; jq "{'pdf_path': 'book.pdf'}"])
     = failure_verdict (py "'epub_path'")
  /\ observe (run CPython.loads Library.no_such_file [script; sample_request])
     = failure_verdict (py "[Errno 2] No such file or directory: 'missing.pdf'").
Proof.
  split; [| split].
  - refine (proj1 (failure_response CPython.loads Library.converts _ _ _)).
    apply (@malformed_json CPython.loads Library.converts script
             (jq "{'pdf_path': ") []
             (CPython.JSONDecodeError "Expecting value" (jq "{'pdf_path': ") 13)).
    vm_compute. reflexivity.
  - refine (proj1 (failure_response CPython.loads Library.converts _ _ _)).
    apply (@missing_epub_path CPython.loads Library.converts script
             (jq "{'pdf_path': 'book.pdf'}") []
             [(py "pdf_path", VStr (py "book.pdf"))] (VStr (py "book.pdf")));
      vm_compute; reflexivity.
  - refine (proj1 (failure_response CPython.loads Library.no_such_file _ _ _)).
    apply (@conversion_raised CPython.loads Library.no_such_file
             [script; sample_request] sample_call
             {| exc_type := "FileNotFoundError";
                exc_str := py "[Errno 2] No such file or directory: 'missing.pdf'" |}).
    + vm_compute. left. reflexivity.
    + reflexivity.
Defined.

(** C3.  With no command-line argument ([sys.argv] holds the script name
    at most) the process writes the single line
    [{"success": false, "error": "No arguments provided"}] to standard
    output, nothing to standard error, and exits with status 1. *)
Theorem no_arguments_response
    (json_loads : pystr -> returns value)
    (transform_epub : transform_epub_args -> returns value)
    (sys_argv : list pystr) :
  (length sys_argv < 2)%nat ->
  observe (run json_loads transform_epub sys_argv)
  = {| stdout_text := [jq "{'success': false, 'error': 'No arguments provided'}"
                       ++ newline];
       stderr_text := [];
       exit_code := 1 |}.
Proof.
  intros H. now rewrite (run_without_argument json_loads transform_epub _ H).
Qed.

Lemma no_arguments_response_witness :
  (length [script] < 2)%nat
  /\ observe (run CPython.loads Library.converts [script])
     = {| stdout_text := [jq "{'success': false, 'error': 'No arguments provided'}"
                          ++ newline];
          stderr_text := [];
          exit_code := 1 |}.
Proof.
  assert (H : (length [script] < 2)%nat) by (cbn; lia).
  split; [exact H |].
  exact (no_arguments_response CPython.loads Library.converts [script] H).
Defined.

(** C4.  The exit status is 0 exactly when the conversion routine was
    called and returned; on every other run it is 1. *)
Theorem exit_status_zero_iff_converted
    (json_loads : pystr -> returns value)
    (transform_epub : transform_epub_args -> returns value)
    (sys_argv : list pystr) :
  (exit_status (fst (run json_loads transform_epub sys_argv)) = 0%Z
   <-> exists kwargs v,
         In (Call kwargs) (snd (run json_loads transform_epub sys_argv))
         /\ transform_epub kwargs = Returns v)
  /\ (exit_status (fst (run json_loads transform_epub sys_argv)) = 0%Z
      \/ exit_status (fst (run json_loads transform_epub sys_argv)) = 1%Z).
Proof.
  destruct (run_endings json_loads transform_epub sys_argv)
    as [[_ E] | [[e E] | (d & p & q & E)]]; rewrite E;
    [| | generalize (call_of d p q); intros k].
  - split; [split |]; cbn.
    + discriminate.
    + intros (kw & v & [H | []] & _). discriminate.
    + now right.
  - split; [split |]; cbn.
    + discriminate.
    + intros (kw & v & [H | []] & _). discriminate.
    + now right.
  - unfold conclude. destruct (transform_epub k) as [v | e] eqn:T; cbn.
    + split; [split |]; auto.
      intros _. exists k, v. auto.
    + split; [split |]; auto.
      * discriminate.
      * intros (kw & v & [H | [H | []]] & G); try discriminate.
        inversion H; subst. congruence.
Qed.

(** ** The call built from a request *)

(** A request that holds both paths leads to exactly one call, the one
    [call_of] describes. *)
Lemma calls_of_request
    (json_loads : pystr -> returns value)
    (transform_epub : transform_epub_args -> returns value)
    (prog s : pystr) (rest : list pystr) (d : dict) (p q : value) :
  json_loads s = Returns (VDict d) ->
  dict_lookup d (py "pdf_path") = Some p ->
  dict_lookup d (py "epub_path") = Some q ->
  calls (snd (run json_loads transform_epub (prog :: s :: rest))) = [call_of d p q].
Proof.
  intros H G1 G2.
  rewrite (run_request json_loads transform_epub prog s rest d p q H G1 G2).
  apply calls_conclude.
Qed.

(** C5.  For a request that holds both paths, the conversion routine is
    called once; the authors it receives are the one-element list
    [[author]] when [author] is a non-empty string, and the empty list when
    [author] is absent or the empty string. *)
Theorem authors_of_request
    (json_loads : pystr -> returns value)
    (transform_epub : transform_epub_args -> returns value)
    (prog s : pystr) (rest : list pystr) (d : dict) (p q : value) :
  json_loads s = Returns (VDict d) ->
  dict_lookup d (py "pdf_path") = Some p ->
  dict_lookup d (py "epub_path") = Some q ->
  exists kwargs,
    calls (snd (run json_loads transform_epub (prog :: s :: rest))) = [kwargs]
    /\ (forall a, dict_lookup d (py "author") = Some (VStr a) -> a <> [] ->
                  authors (book_meta kwargs) = [VStr a])
    /\ (dict_lookup d (py "author") = None
        \/ dict_lookup d (py "author") = Some (VStr []) ->
        authors (book_meta kwargs) = []).
Proof.
  intros H G1 G2. exists (call_of d p q). split; [| split].
  - now apply calls_of_request.
  - intros a Ha Hne. unfold call_of. cbn [book_meta authors]. rewrite Ha.
    destruct a; [now destruct Hne | reflexivity].
  - intros [Ha | Ha]; unfold call_of; cbn [book_meta authors]; rewrite Ha;
      reflexivity.
Qed.

Lemma authors_of_request_witness :
  (exists kwargs,
     calls (snd (run CPython.loads Library.converts [script; sample_request]))
     = [kwargs]
     /\ authors (book_meta kwargs) = [VStr (py "Jane Doe")])
  /\ (exists kwargs,
        calls (snd (run CPython.loads Library.converts [script; bare_request]))
        = [kwargs]
        /\ authors (book_meta kwargs) = []).
Proof.
  split.
  - destruct (authors_of_request CPython.loads Library.converts script
                sample_request [] (decoded sample_request)
                (VStr (py "book.pdf")) (VStr (py "book.epub")))
      as (kwargs & Hcalls & Hone & _); try (vm_compute; reflexivity).
    exists kwargs. split; [exact Hcalls |].
    apply Hone; [vm_compute; reflexivity | discriminate].
  - destruct (authors_of_request CPython.loads Library.converts script
                bare_request [] (decoded bare_request)
                (VStr (py "book.pdf")) (VStr (py "book.epub")))
      as (kwargs & Hcalls & _ & Hnone); try (vm_compute; reflexivity).
    exists kwargs. split; [exact Hcalls |].
    apply Hnone. left. vm_compute. reflexivity.
Defined.

(** C6.  For a request that holds both paths, the title the conversion
    routine receives is [Untitled] when the request has no [title], and the
    value of [title], unchanged, when it has one. *)
Theorem title_of_request
    (json_loads : pystr -> returns value)
    (transform_epub : transform_epub_args -> returns value)
    (prog s : pystr) (rest : list pystr) (d : dict) (p q : value) :
  json_loads s = Returns (VDict d) ->
  dict_lookup d (py "pdf_path") = Some p ->
  dict_lookup d (py "epub_path") = Some q ->
  exists kwargs,
    calls (snd (run json_loads transform_epub (prog :: s :: rest))) = [kwargs]
    /\ (dict_lookup d (py "title") = None ->
        title (book_meta kwargs) = VStr (py "Untitled"))
    /\ (forall t, dict_lookup d (py "title") = Some t ->
                  title (book_meta kwargs) = t).
Proof.
  intros H G1 G2. exists (call_of d p q). split; [| split].
  - now apply calls_of_request.
  - intros Ht. unfold call_of. cbn [book_meta title]. now rewrite Ht.
  - intros t Ht. unfold call_of. cbn [book_meta title]. now rewrite Ht.
Qed.

Lemma title_of_request_witness :
  (exists kwargs,
     calls (snd (run CPython.loads Library.converts [script; bare_request]))
     = [kwargs]
     /\ title (book_meta kwargs) = VStr (py "Untitled"))
  /\ (exists kwargs,
        calls (snd (run CPython.loads Library.converts [script; titled_request]))
        = [kwargs]
        /\ title (book_meta kwargs) = VStr (py "Dune")).
Proof.
  split.
  - destruct (title_of_request CPython.loads Library.converts script
                bare_request [] (decoded bare_request)
                (VStr (py "book.pdf")) (VStr (py "book.epub")))
      as (kwargs & Hcalls & Hdefault & _); try (vm_compute; reflexivity).
    exists kwargs. split; [exact Hcalls |].
    apply Hdefault. vm_compute. reflexivity.
  - destruct (title_of_request CPython.loads Library.converts script
                titled_request [] (decoded titled_request)
                (VStr (py "book.pdf")) (VStr (py "book.epub")))
      as (kwargs & Hcalls & _ & Hgiven); try (vm_compute; reflexivity).
    exists kwargs. split; [exact Hcalls |].
    apply Hgiven. vm_compute. reflexivity.
Defined.

(** Whatever the command line, a call of the conversion routine carries
    the fixed policy. *)
Lemma every_call_has_fixed_policy
    (json_loads : pystr -> returns value)
    (transform_epub : transform_epub_args -> returns value)
    (sys_argv : list pystr) (kwargs : transform_epub_args) :
  In kwargs (calls (snd (run json_loads transform_epub sys_argv))) ->
  fixed_policy kwargs.
Proof.
  intros H.
  destruct (run_endings json_loads transform_epub sys_argv)
    as [[_ E] | [[e E] | (d & p & q & E)]]; rewrite E in H.
  - now destruct H.
  - now destruct H.
  - rewrite calls_conclude in H. destruct H as [<- | []]. repeat split.
Qed.

(** C7.  For a request that holds both paths, the conversion routine is
    called once, with [ocr_size="small"] and the four flags set, whatever
    else the request holds. *)
Theorem fixed_policy_of_request
    (json_loads : pystr -> returns value)
    (transform_epub : transform_epub_args -> returns value)
    (prog s : pystr) (rest : list pystr) (d : dict) (p q : value) :
  json_loads s = Returns (VDict d) ->
  dict_lookup d (py "pdf_path") = Some p ->
  dict_lookup d (py "epub_path") = Some q ->
  exists kwargs,
    calls (snd (run json_loads transform_epub (prog :: s :: rest))) = [kwargs]
    /\ ocr_size kwargs = py "small"
    /\ includes_cover kwargs = true
    /\ includes_footnotes kwargs = true
    /\ ignore_pdf_errors kwargs = true
    /\ ignore_ocr_errors kwargs = true.
Proof.
  intros H G1 G2. exists (call_of d p q). split.
  - now apply calls_of_request.
  - apply (every_call_has_fixed_policy json_loads transform_epub (prog :: s :: rest)).
    rewrite (calls_of_request json_loads transform_epub prog s rest d p q H G1 G2).
    now left.
Qed.

Lemma fixed_policy_of_request_witness :
  exists kwargs,
    calls (snd (run CPython.loads Library.converts [script; noisy_request]))
    = [kwargs]
    /\ ocr_size kwargs = py "small"
    /\ includes_cover kwargs = true
    /\ includes_footnotes kwargs = true
    /\ ignore_pdf_errors kwargs = true
    /\ ignore_ocr_errors kwargs = true.
Proof.
  apply (fixed_policy_of_request CPython.loads Library.converts script
           noisy_request [] (decoded noisy_request)
           (VStr (py "book.pdf")) (VStr (py "book.epub")));
    vm_compute; reflexivity.
Defined.

(** ** Every run ends with a verdict *)

(** C8.  With an argument on the command line, whatever it holds, the
    process ends with one of the two JSON responses of the [try]
    statement (success on standard output with status 0, or failure on
    standard error with status 1) and through [sys.exit]: no exception
    reaches the interpreter.  In particular a decoded value that is not an
    object raises [TypeError] at [args["pdf_path"]], and the handler
    reports it. *)
Theorem always_a_json_verdict
    (json_loads : pystr -> returns value)
    (transform_epub : transform_epub_args -> returns value)
    (prog s : pystr) (rest : list pystr) :
  (observe (run json_loads transform_epub (prog :: s :: rest)) = success_verdict
   \/ exists e,
        observe (run json_loads transform_epub (prog :: s :: rest))
        = failure_verdict (str e))
  /\ uncaught (fst (run json_loads transform_epub (prog :: s :: rest))) = None
  /\ (exists code,
        fst (run json_loads transform_epub (prog :: s :: rest))
        = Raise (SystemExit code))
  /\ forall v,
       json_loads s = Returns v ->
       (forall d, v <> VDict d) ->
       exists e,
         getitem v (py "pdf_path") = Raises e
         /\ exc_type e = "TypeError"%string
         /\ observe (run json_loads transform_epub (prog :: s :: rest))
            = failure_verdict (str e).
Proof.
  split; [| split; [| split]].
  - destruct (run_endings json_loads transform_epub (prog :: s :: rest))
      as [[L _] | [[e E] | (d & p & q & E)]].
    + cbn in L. lia.
    + right. exists e. now rewrite E.
    + rewrite E, observe_conclude.
      destruct (transform_epub (call_of d p q)) as [v | e]; [now left |].
      right. now exists e.
  - destruct (run_endings json_loads transform_epub (prog :: s :: rest))
      as [[_ E] | [[e E] | (d & p & q & E)]]; rewrite E; try reflexivity.
    unfold conclude. now destruct (transform_epub (call_of d p q)).
  - destruct (run_endings json_loads transform_epub (prog :: s :: rest))
      as [[_ E] | [[e E] | (d & p & q & E)]]; rewrite E.
    + now exists 1%Z.
    + now exists 1%Z.
    + unfold conclude. destruct (transform_epub (call_of d p q));
        [now exists 0%Z | now exists 1%Z].
  - intros v H Hv. destruct (getitem_not_dict v (py "pdf_path") Hv) as (e & G & T).
    exists e. repeat split; trivial.
    now rewrite (run_getitem_raises json_loads transform_epub prog s rest v e H G).
Qed.

Lemma always_a_json_verdict_witness :
  observe (run CPython.loads Library.converts [script; jq "[1, 2]"])
  = failure_verdict (py "list indices must be integers or slices, not str")
  /\ observe (run CPython.loads Library.converts [script; jq "'book.pdf'"])
     = failure_verdict (py "string indices must be integers, not 'str'")
  /\ observe (run CPython.loads Library.converts [script; jq "null"])
     = failure_verdict (py "'NoneType' object is not subscriptable").
Proof.
  split; [| split].
  - destruct (proj2 (proj2 (proj2
                (always_a_json_verdict CPython.loads Library.converts
                   script (jq "[1, 2]") [])))
                (VList [VInt 1; VInt 2]))
      as (e & G & _ & O); [vm_compute; reflexivity | discriminate |].
    rewrite O. injection G as <-. reflexivity.
  - destruct (proj2 (proj2 (proj2
                (always_a_json_verdict CPython.loads Library.converts
                   script (jq "'book.pdf'") [])))
                (VStr (py "book.pdf")))
      as (e & G & _ & O); [vm_compute; reflexivity | discriminate |].
    rewrite O. injection G as <-. reflexivity.
  - destruct (proj2 (proj2 (proj2
                (always_a_json_verdict CPython.loads Library.converts
                   script (jq "null") [])))
                VNone)
      as (e & G & _ & O); [vm_compute; reflexivity | discriminate |].
    rewrite O. injection G as <-. reflexivity.
Defined.

(** ** Unknown fields *)

(** C9.  Two requests that agree on [pdf_path], [epub_path], [title] and
    [author] (present with the same value, or absent in both) give the
    same run: the same call of the conversion routine, the same texts on
    the same streams and the same way of leaving, whatever other keys they
    hold. *)
Theorem unknown_fields_ignored
    (json_loads : pystr -> returns value)
    (transform_epub : transform_epub_args -> returns value)
    (prog1 prog2 s1 s2 : pystr) (rest1 rest2 : list pystr) (d1 d2 : dict) :
  json_loads s1 = Returns (VDict d1) ->
  json_loads s2 = Returns (VDict d2) ->
  (forall key, In key request_keys -> dict_lookup d1 key = dict_lookup d2 key) ->
  run json_loads transform_epub (prog1 :: s1 :: rest1)
  = run json_loads transform_epub (prog2 :: s2 :: rest2).
Proof.
  intros H1 H2 A.
  assert (Ap : dict_lookup d1 (py "pdf_path") = dict_lookup d2 (py "pdf_path"))
    by (apply A; cbn; auto).
  assert (Aq : dict_lookup d1 (py "epub_path") = dict_lookup d2 (py "epub_path"))
    by (apply A; cbn; auto).
  assert (At : dict_lookup d1 (py "title") = dict_lookup d2 (py "title"))
    by (apply A; cbn; auto).
  assert (Aa : dict_lookup d1 (py "author") = dict_lookup d2 (py "author"))
    by (apply A; cbn; auto 6).
  destruct (dict_lookup d1 (py "pdf_path")) as [p|] eqn:G1.
  - destruct (dict_lookup d1 (py "epub_path")) as [q|] eqn:G2.
    + rewrite (run_request json_loads transform_epub prog1 s1 rest1 d1 p q H1 G1 G2).
      rewrite (run_request json_loads transform_epub prog2 s2 rest2 d2 p q H2)
        by congruence.
      unfold call_of. now rewrite At, Aa.
    + rewrite (run_missing_epub_path json_loads transform_epub prog1 s1 rest1 d1 p H1 G1 G2).
      rewrite (run_missing_epub_path json_loads transform_epub prog2 s2 rest2 d2 p H2)
        by congruence.
      reflexivity.
  - rewrite (run_missing_pdf_path json_loads transform_epub prog1 s1 rest1 d1 H1 G1).
    rewrite (run_missing_pdf_path json_loads transform_epub prog2 s2 rest2 d2 H2)
      by congruence.
    reflexivity.
Qed.

Lemma unknown_fields_ignored_witness :
  run CPython.loads Library.converts [script; sample_request]
  = run CPython.loads Library.converts [script; noisy_request]
  /\ decoded sample_request <> decoded noisy_request.
Proof.
  split.
  - apply (unknown_fields_ignored CPython.loads Library.converts
             script script sample_request noisy_request [] []
             (decoded sample_request) (decoded noisy_request)).
    + vm_compute. reflexivity.
    + vm_compute. reflexivity.
    + intros key [<- | [<- | [<- | [<- | []]]]]; vm_compute; reflexivity.
  - vm_compute. discriminate.
Defined.

(** ** One response line *)

Lemma hex_digit_not_newline (n : N) : hex_digit n <> 10%N.
Proof. unfold hex_digit. destruct (N.ltb n 10); lia. Qed.

Lemma u_escape_no_newline (n : N) : ~ In 10%N (u_escape n).
Proof.
  unfold u_escape. cbn. intros H.
  repeat (destruct H as [H | H]; [try discriminate H; now apply hex_digit_not_newline in H |]).
  exact H.
Qed.

(** [json.dumps] escapes the newline: an encoded string holds none. *)
Lemma escape_char_no_newline (c : N) : ~ In 10%N (escape_char c).
Proof.
  unfold escape_char.
  repeat match goal with
         | |- context [if N.eqb c ?k then _ else _] =>
             destruct (N.eqb_spec c k);
             [cbn; intros H; repeat (destruct H as [H | H]; [discriminate H |]); exact H |]
         end.
  destruct (N.leb 32 c && N.leb c 126) eqn:P.
  - apply andb_prop in P. destruct P as [P _]. apply N.leb_le in P.
    intros [H | []]. lia.
  - destruct (N.ltb c 65536).
    + apply u_escape_no_newline.
    + intros H. apply in_app_or in H. destruct H as [H | H];
        now apply u_escape_no_newline in H.
Qed.

Lemma encode_basestring_ascii_no_newline (s : pystr) :
  ~ In 10%N (encode_basestring_ascii s).
Proof.
  unfold encode_basestring_ascii. intros H.
  apply in_app_or in H. destruct H as [[H | []] | H]; [discriminate H |].
  apply in_app_or in H. destruct H as [H | [H | []]]; [| discriminate H].
  apply in_flat_map in H. destruct H as (c & _ & H).
  now apply escape_char_no_newline in H.
Qed.

Lemma failure_response_no_newline (message : pystr) :
  ~ In 10%N (json_dumps (VDict [(py "success", VBool false);
                                (py "error", VStr message)])).
Proof.
  cbn [json_dumps]. intros H.
  repeat (apply in_app_or in H; destruct H as [H | H]);
    first
      [ apply in_flat_map in H; destruct H as (c & _ & H);
        now apply escape_char_no_newline in H
      | cbn in H; repeat (destruct H as [H | H]; [discriminate H |]); exact H ].
Qed.

(** C10.  Every run writes exactly once: one text, on one stream, made of
    the JSON encoding of one value and the newline that ends the line; the
    encoding itself holds no newline. *)
Theorem one_response_line
    (json_loads : pystr -> returns value)
    (transform_epub : transform_epub_args -> returns value)
    (sys_argv : list pystr) :
  exists to response,
    writes (snd (run json_loads transform_epub sys_argv))
    = [(to, json_dumps response ++ newline)]
    /\ ~ In 10%N (json_dumps response)
    /\ (length (written stdout (snd (run json_loads transform_epub sys_argv)))
        + length (written stderr (snd (run json_loads transform_epub sys_argv)))
        = 1)%nat.
Proof.
  assert (ok : ~ In 10%N (json_dumps (VDict [(py "success", VBool true)]))).
  { cbn. intros H. repeat (destruct H as [H | H]; [discriminate H |]). exact H. }
  destruct (run_endings json_loads transform_epub sys_argv)
    as [[_ E] | [[e E] | (d & p & q & E)]]; rewrite E.
  - exists stdout,
      (VDict [(py "success", VBool false);
              (py "error", VStr (py "No arguments provided"))]).
    split; [| split].
    + cbn [snd writes]. now rewrite dumps_no_arguments.
    + apply failure_response_no_newline.
    + reflexivity.
  - exists stderr, (VDict [(py "success", VBool false); (py "error", VStr (str e))]).
    split; [| split].
    + unfold fail_with. cbn [snd app writes]. now rewrite dumps_failure.
    + apply failure_response_no_newline.
    + reflexivity.
  - unfold conclude. destruct (transform_epub (call_of d p q)) as [v | e].
    + exists stdout, (VDict [(py "success", VBool true)]).
      split; [| split]; [reflexivity | exact ok | reflexivity].
    + exists stderr, (VDict [(py "success", VBool false); (py "error", VStr (str e))]).
      split; [| split].
      * unfold fail_with. cbn [snd app writes]. now rewrite dumps_failure.
      * apply failure_response_no_newline.
      * reflexivity.
Qed.

(** ** Further properties *)

(** X1.  Only [sys.argv[1]] is read: the name of the script and any
    further argument do not change the run. *)
Theorem extra_arguments_ignored
    (json_loads : pystr -> returns value)
    (transform_epub : transform_epub_args -> returns value)
    (prog1 prog2 s : pystr) (rest1 rest2 : list pystr) :
  run json_loads transform_epub (prog1 :: s :: rest1)
  = run json_loads transform_epub (prog2 :: s :: rest2).
Proof. reflexivity. Qed.

(** X2.  The conversion routine is called at most once, and not at all
    when the command line has no argument. *)
Theorem at_most_one_call
    (json_loads : pystr -> returns value)
    (transform_epub : transform_epub_args -> returns value)
    (sys_argv : list pystr) :
  (length (calls (snd (run json_loads transform_epub sys_argv))) <= 1)%nat
  /\ ((length sys_argv <? 2)%nat = true ->
      calls (snd (run json_loads transform_epub sys_argv)) = []).
Proof.
  split.
  - destruct (run_endings json_loads transform_epub sys_argv)
      as [[_ E] | [[e E] | (d & p & q & E)]]; rewrite E.
    + cbn. lia.
    + cbn. lia.
    + rewrite calls_conclude. cbn. lia.
  - intros L. apply Nat.ltb_lt in L.
    now rewrite (run_without_argument json_loads transform_epub sys_argv L).
Qed.

Lemma at_most_one_call_witness :
  calls (snd (run CPython.loads Library.converts [script])) = [].
Proof.
  exact (proj2 (at_most_one_call CPython.loads Library.converts [script]) eq_refl).
Defined.

Definition printable (c : N) : Prop := (32 <= c <= 126)%N.

Lemma hex_digit_printable (n : N) : (n < 16)%N -> printable (hex_digit n).
Proof.
  unfold hex_digit, printable. intros H.
  destruct (N.ltb_spec n 10); lia.
Qed.

Lemma u_escape_printable (n : N) : Forall printable (u_escape n).
Proof.
  unfold u_escape. cbn.
  repeat constructor; try (unfold printable; lia);
    apply hex_digit_printable; apply N.mod_lt; discriminate.
Qed.

Lemma escape_char_printable (c : N) : Forall printable (escape_char c).
Proof.
  unfold escape_char.
  repeat match goal with
         | |- context [if N.eqb c ?k then _ else _] =>
             destruct (N.eqb_spec c k);
             [cbn; repeat constructor; unfold printable; lia |]
         end.
  destruct (N.leb 32 c && N.leb c 126) eqn:P.
  - apply andb_prop in P. destruct P as [P Q].
    apply N.leb_le in P. apply N.leb_le in Q.
    repeat constructor; lia.
  - destruct (N.ltb c 65536).
    + apply u_escape_printable.
    + apply Forall_app. split; apply u_escape_printable.
Qed.

Lemma encode_basestring_ascii_printable (s : pystr) :
  Forall printable (encode_basestring_ascii s).
Proof.
  unfold encode_basestring_ascii.
  apply Forall_app. split; [repeat constructor; unfold printable; lia |].
  apply Forall_app. split; [| repeat constructor; unfold printable; lia].
  apply Forall_flat_map. apply Forall_forall. intros c _.
  apply escape_char_printable.
Qed.

(** X3.  [json.dumps] keeps its default [ensure_ascii]: the response is
    made of printable ASCII whatever the text of the exception holds, and
    ends with the newline of [print]. *)
Theorem response_is_printable_ascii
    (json_loads : pystr -> returns value)
    (transform_epub : transform_epub_args -> returns value)
    (sys_argv : list pystr) :
  exists to body,
    writes (snd (run json_loads transform_epub sys_argv)) = [(to, body ++ newline)]
    /\ Forall printable body.
Proof.
  assert (failure : forall message,
             Forall printable
               (jq "{'success': false, 'error': "
                ++ encode_basestring_ascii message ++ py "}")).
  { intros message. apply Forall_app. split.
    - cbn. repeat constructor; unfold printable; lia.
    - apply Forall_app. split; [apply encode_basestring_ascii_printable |].
      cbn. repeat constructor; unfold printable; lia. }
  destruct (run_endings json_loads transform_epub sys_argv)
    as [[_ E] | [[e E] | (d & p & q & E)]]; rewrite E.
  - exists stdout, (jq "{'success': false, 'error': 'No arguments provided'}").
    split; [reflexivity |].
    cbn. repeat constructor; unfold printable; lia.
  - exists stderr,
      (jq "{'success': false, 'error': " ++ encode_basestring_ascii (str e) ++ py "}").
    split; [| apply failure].
    unfold fail_with, failure_line. cbn [snd app writes].
    now rewrite <- !app_assoc.
  - unfold conclude. destruct (transform_epub (call_of d p q)) as [v | e].
    + exists stdout, (jq "{'success': true}"). split; [reflexivity |].
      cbn. repeat constructor; unfold printable; lia.
    + exists stderr,
        (jq "{'success': false, 'error': " ++ encode_basestring_ascii (str e) ++ py "}").
      split; [| apply failure].
      unfold fail_with, failure_line. cbn [snd app writes].
      now rewrite <- !app_assoc.
Qed.

(** * The module around [main] *)

(** The statements of the script outside [main]: the vendored library is
    put first on [sys.path], [pdf_craft] is imported, and [main()] runs
    when the file is the program. *)

Set Implicit Arguments.

(** ** [os.path] on POSIX *)

Module posixpath.

Definition sep : N := 47%N.

(** [p.rfind('/') + 1]: the position after the last slash, 0 without one. *)
Fixpoint after_last_sep (p : pystr) (i : nat) (found : nat) : nat :=
  match p with
  | [] => found
  | c :: p' => after_last_sep p' (S i) (if N.eqb c sep then S i else found)
  end.

(** [text.rstrip('/')]. *)
Fixpoint rstrip_sep (text : pystr) : pystr :=
  match text with
  | [] => []
  | c :: text' =>
      match rstrip_sep text' with
      | [] => if N.eqb c sep then [] else [c]
      | kept => c :: kept
      end
  end.

(** [os.path.dirname(p)]: what stands before the last slash, without its
    trailing slashes unless it is made of slashes only. *)
Definition dirname (p : pystr) : pystr :=
  let i := after_last_sep p 0 0 in
  let head := firstn i p in
  if negb (Nat.eqb (length head) 0) && negb (forallb (N.eqb sep) head)
  then rstrip_sep head
  else head.

Definition startswith_sep (b : pystr) : bool :=
  match b with
  | c :: _ => N.eqb c sep
  | [] => false
  end.

Definition endswith_sep (path : pystr) : bool :=
  match rev path with
  | c :: _ => N.eqb c sep
  | [] => false
  end.

(** One round of the loop of [os.path.join]: an absolute component starts
    afresh, another one is appended, after a slash unless the path is empty
    or ends with one. *)
Definition join_step (path b : pystr) : pystr :=
  if startswith_sep b then b
  else if Nat.eqb (length path) 0 || endswith_sep path then path ++ b
  else path ++ [sep] ++ b.

(** [os.path.join(a, *p)]. *)
Definition join (a : pystr) (p : list pystr) : pystr :=
  fold_left join_step p a.

End posixpath.

(** The entry line 14 puts on [sys.path]:
    [os.path.join(os.path.dirname(__file__), "..", "pdf-craft-main")]. *)
Definition vendored_path (dunder_file : pystr) : pystr :=
  posixpath.join (posixpath.dirname dunder_file) [py ".."; py "pdf-craft-main"].

(** ** The module body *)

Section Module.

Variable json_loads : pystr -> returns value.

(** [from pdf_craft import transform_epub, BookMeta], resolved against
    [sys.path]: the import gives the conversion routine or raises. *)
Variable import_pdf_craft :
  list pystr -> returns (transform_epub_args -> returns value).

(** The module body, lines 9 to 55, for given [__file__], [__name__],
    [sys.argv] and [sys.path]: how it ends, what it did, and [sys.path]
    afterwards. *)
Definition convert_pdf (dunder_file dunder_name : pystr)
    (sys_argv sys_path : list pystr) : (result unit * trace) * list pystr :=
  let sys_path := vendored_path dunder_file :: sys_path in
  match import_pdf_craft sys_path with
  | Raises e => ((Raise (Exc e), []), sys_path)
  | Returns transform_epub =>
      if str_eqb dunder_name (py "__main__")
      then (main json_loads transform_epub sys_argv [], sys_path)
      else ((Normal tt, []), sys_path)
  end.

End Module.

(** Values that test false: [None], [False], zero, and the empty string,
    list and dict. *)
Definition falsy (v : value) : Prop :=
  v = VNone \/ v = VBool false \/ v = VInt 0
  \/ (exists s, v = VFloat (S754_zero s))
  \/ v = VStr [] \/ v = VList [] \/ v = VDict [].

(** Sample requests with values of other types than [str]. *)
Definition untyped_request : pystr :=
  jq "{'pdf_path': null, 'epub_path': 7}".

Definition untyped_call : transform_epub_args :=
  call_of [] VNone (VInt 7).

Definition zero_author_request : pystr :=
  jq "{'pdf_path': 'book.pdf', 'epub_path': 'book.epub', 'author': 0}".

Definition two_authors_request : pystr :=
  jq "{'pdf_path': 'book.pdf', 'epub_path': 'book.epub', 'author': ['Ann', 'Bob']}".

(** A vendored library that cannot be imported, and one that can. *)
Definition import_fails (sys_path : list pystr)
  : returns (transform_epub_args -> returns value) :=
  Raises {| exc_type := "ModuleNotFoundError";
            exc_str := py "No module named 'pdf_craft'" |}.

Definition import_succeeds (sys_path : list pystr)
  : returns (transform_epub_args -> returns value) :=
  Returns Library.converts.

(** A code point of a well-formed text: a Unicode scalar value, that is,
    no surrogate. *)
Definition scalar_value (c : N) : Prop :=
  (c < 1114112)%N /\ ~ (55296 <= c <= 57343)%N.

(** A code point [json.dumps] can leave as it is inside a string. *)
Definition plain (c : N) : bool :=
  negb (N.eqb c 34 || N.eqb c 92 || N.leb c 31).

(** An exception text with quotes, a backslash, a newline, an accented
    letter and a character outside the basic plane. *)
Definition awkward_text : pystr :=
  jq "no 'file' at C:\tmp" ++ newline ++ [233; 128512]%N.

(** The items of an object whose values are strings. *)
Definition string_items (l : list (pystr * pystr)) : dict :=
  map (fun kv => (fst kv, VStr (snd kv))) l.

(** What [json.dumps] writes for the items after the first. *)
Fixpoint items_text (l : list (pystr * pystr)) : pystr :=
  match l with
  | [] => []
  | (k, v) :: l' =>
      py ", " ++ encode_basestring_ascii k ++ py ": "
      ++ encode_basestring_ascii v ++ items_text l'
  end.

(** The dict the object parser builds from items read in order. *)
Definition read_items (l : list (pystr * pystr)) (rval : dict) : dict :=
  fold_left (fun d kv => dict_setitem d (fst kv) (VStr (snd kv))) l rval.

Definition scalar_text (text : pystr) : Prop := Forall scalar_value text.

(** The command line of the usage note, built by [json.dumps] from four
    texts. *)
Definition usage_request (p q t a : pystr) : pystr :=
  json_dumps (VDict [(py "pdf_path", VStr p); (py "epub_path", VStr q);
                     (py "title", VStr t); (py "author", VStr a)]).

Unset Implicit Arguments.

(** ** What a call and a success tell about the request *)

Lemma str_eqb_eq (a b : pystr) : str_eqb a b = true <-> a = b.
Proof.
  revert b. induction a as [|x a IH]; intros [|y b]; cbn; split;
    try discriminate; try reflexivity.
  - intros H. apply andb_prop in H. destruct H as [H1 H2].
    apply N.eqb_eq in H1. apply IH in H2. now subst.
  - intros H. injection H as -> ->. rewrite N.eqb_refl. cbn. now apply IH.
Qed.

(** A run with an argument, by what the argument decodes to. *)
Lemma run_by_request
    (json_loads : pystr -> returns value)
    (transform_epub : transform_epub_args -> returns value)
    (prog s : pystr) (rest : list pystr) :
  (exists e, run json_loads transform_epub (prog :: s :: rest) = fail_with (str e) [])
  \/ (exists d p q,
        json_loads s = Returns (VDict d)
        /\ dict_lookup d (py "pdf_path") = Some p
        /\ dict_lookup d (py "epub_path") = Some q
        /\ run json_loads transform_epub (prog :: s :: rest)
           = conclude transform_epub (call_of d p q)).
Proof.
  destruct (json_loads s) as [args|e] eqn:H.
  - destruct args as [ | b | n | f | t | l | d ];
      try (left; eexists; eapply run_getitem_raises; [exact H | reflexivity]).
    destruct (dict_lookup d (py "pdf_path")) as [p|] eqn:G1.
    + destruct (dict_lookup d (py "epub_path")) as [q|] eqn:G2.
      * right. exists d, p, q. repeat split; trivial. now apply run_request.
      * left. exists {| exc_type := "KeyError"; exc_str := py "'epub_path'" |}.
        now apply run_missing_epub_path with (d := d) (p := p).
    + left. exists {| exc_type := "KeyError"; exc_str := py "'pdf_path'" |}.
      now apply run_missing_pdf_path with (d := d).
  - left. exists e. now apply run_decoder_raises.
Qed.

(** X4.  The process exits with status 0 exactly when the first argument
    decodes to an object that holds [pdf_path] and [epub_path] and the
    conversion routine returns on the call built from that object. *)
Theorem converted_iff_request_accepted
    (json_loads : pystr -> returns value)
    (transform_epub : transform_epub_args -> returns value)
    (sys_argv : list pystr) :
  exit_status (fst (run json_loads transform_epub sys_argv)) = 0%Z
  <-> exists prog s rest d p q v,
        sys_argv = prog :: s :: rest
        /\ json_loads s = Returns (VDict d)
        /\ dict_lookup d (py "pdf_path") = Some p
        /\ dict_lookup d (py "epub_path") = Some q
        /\ transform_epub (call_of d p q) = Returns v.
Proof.
  split.
  - intros H. destruct sys_argv as [|prog [|s rest]];
      try (rewrite run_without_argument in H by (cbn; lia); discriminate H).
    destruct (run_by_request json_loads transform_epub prog s rest)
      as [[e E] | (d & p & q & J & G1 & G2 & E)]; rewrite E in H.
    + discriminate H.
    + unfold conclude in H.
      destruct (transform_epub (call_of d p q)) as [v|e] eqn:T; [| discriminate H].
      exists prog, s, rest, d, p, q, v. auto.
  - intros (prog & s & rest & d & p & q & v & -> & J & G1 & G2 & T).
    rewrite (run_request json_loads transform_epub prog s rest d p q J G1 G2).
    unfold conclude. now rewrite T.
Qed.

(** X5.  The conversion routine is called only after both required keys
    were found, and it receives their values as they are, of whatever JSON
    type: the call in the trace is the one built from the decoded
    object. *)
Theorem call_comes_from_request
    (json_loads : pystr -> returns value)
    (transform_epub : transform_epub_args -> returns value)
    (sys_argv : list pystr) (kwargs : transform_epub_args) :
  In (Call kwargs) (snd (run json_loads transform_epub sys_argv)) ->
  exists prog s rest d,
    sys_argv = prog :: s :: rest
    /\ json_loads s = Returns (VDict d)
    /\ dict_lookup d (py "pdf_path") = Some (pdf_path kwargs)
    /\ dict_lookup d (py "epub_path") = Some (epub_path kwargs)
    /\ kwargs = call_of d (pdf_path kwargs) (epub_path kwargs).
Proof.
  intros H. destruct sys_argv as [|prog [|s rest]];
    try (rewrite run_without_argument in H by (cbn; lia);
         destruct H as [H | []]; discriminate H).
  destruct (run_by_request json_loads transform_epub prog s rest)
    as [[e E] | (d & p & q & J & G1 & G2 & E)]; rewrite E in H.
  - destruct H as [H | []]. discriminate H.
  - assert (K : kwargs = call_of d p q).
    { unfold conclude in H. destruct (transform_epub (call_of d p q)); cbn in H;
        destruct H as [H | [H | []]]; try discriminate H; now inversion H. }
    subst kwargs. exists prog, s, rest, d. auto.
Qed.

Lemma call_comes_from_request_witness :
  In (Call untyped_call)
     (snd (run CPython.loads Library.converts [script; untyped_request]))
  /\ exists d,
       CPython.loads untyped_request = Returns (VDict d)
       /\ dict_lookup d (py "pdf_path") = Some VNone
       /\ dict_lookup d (py "epub_path") = Some (VInt 7).
Proof.
  assert (H : In (Call untyped_call)
                 (snd (run CPython.loads Library.converts [script; untyped_request])))
    by (vm_compute; left; reflexivity).
  split; [exact H |].
  destruct (call_comes_from_request CPython.loads Library.converts
              [script; untyped_request] untyped_call H)
    as (prog & s & rest & d & E & J & G1 & G2 & _).
  injection E as _ <- _. exists d.
  split; [exact J | split; [exact G1 | exact G2]].
Defined.

(** X6.  The test [if author] is a truth test, not a test for a string:
    for a request that holds both paths and an [author] of any type, the
    authors are empty when the value tests false and the one-element list
    holding the value itself otherwise, so that a list of names arrives as
    a list inside a list. *)
Theorem authors_by_truth_value
    (json_loads : pystr -> returns value)
    (transform_epub : transform_epub_args -> returns value)
    (prog s : pystr) (rest : list pystr) (d : dict) (p q a : value) :
  json_loads s = Returns (VDict d) ->
  dict_lookup d (py "pdf_path") = Some p ->
  dict_lookup d (py "epub_path") = Some q ->
  dict_lookup d (py "author") = Some a ->
  exists kwargs,
    calls (snd (run json_loads transform_epub (prog :: s :: rest))) = [kwargs]
    /\ (falsy a -> authors (book_meta kwargs) = [])
    /\ (~ falsy a -> authors (book_meta kwargs) = [a]).
Proof.
  intros J G1 G2 Ga. exists (call_of d p q). split; [| split].
  - now apply calls_of_request.
  - intros F. unfold call_of. cbn [book_meta authors]. rewrite Ga.
    destruct F as [-> | [-> | [-> | [[sg ->] | [-> | [-> | ->]]]]]]; reflexivity.
  - intros F. unfold call_of. cbn [book_meta authors]. rewrite Ga.
    destruct (truthy a) eqn:T; [reflexivity |].
    exfalso. apply F. unfold falsy.
    destruct a as [ | [|] | n | f | t | l | l ]; cbn in T; try discriminate T; auto.
    + right. right. left. apply negb_false_iff in T. apply Z.eqb_eq in T. now subst.
    + destruct f; try discriminate T. right. right. right. left. now exists s0.
    + destruct t; [auto 8 | discriminate T].
    + destruct l; [auto 8 | discriminate T].
    + destruct l; [auto 8 | discriminate T].
Qed.

Lemma authors_by_truth_value_witness :
  (exists kwargs,
     calls (snd (run CPython.loads Library.converts [script; zero_author_request]))
     = [kwargs]
     /\ authors (book_meta kwargs) = [])
  /\ (exists kwargs,
        calls (snd (run CPython.loads Library.converts [script; two_authors_request]))
        = [kwargs]
        /\ authors (book_meta kwargs) = [VList [VStr (py "Ann"); VStr (py "Bob")]]).
Proof.
  split.
  - destruct (authors_by_truth_value CPython.loads Library.converts script
                zero_author_request [] (decoded zero_author_request)
                (VStr (py "book.pdf")) (VStr (py "book.epub")) (VInt 0))
      as (kwargs & Hcalls & Hfalse & _); try (vm_compute; reflexivity).
    exists kwargs. split; [exact Hcalls |].
    apply Hfalse. unfold falsy. auto.
  - destruct (authors_by_truth_value CPython.loads Library.converts script
                two_authors_request [] (decoded two_authors_request)
                (VStr (py "book.pdf")) (VStr (py "book.epub"))
                (VList [VStr (py "Ann"); VStr (py "Bob")]))
      as (kwargs & Hcalls & _ & Htrue); try (vm_compute; reflexivity).
    exists kwargs. split; [exact Hcalls |].
    apply Htrue. unfold falsy.
    intros [H | [H | [H | [[sg H] | [H | [H | H]]]]]]; discriminate H.
Defined.

(** X7.  The verdict is the last thing a run does and it reports the call
    that precedes it: the trace is one write, or the call followed by the
    success line on standard output when the routine returned, or the call
    followed by the failure line with the text of its exception on
    standard error. *)
Theorem verdict_follows_the_call
    (json_loads : pystr -> returns value)
    (transform_epub : transform_epub_args -> returns value)
    (sys_argv : list pystr) :
  (exists to line, snd (run json_loads transform_epub sys_argv) = [Write to line])
  \/ (exists kwargs v,
        transform_epub kwargs = Returns v
        /\ snd (run json_loads transform_epub sys_argv)
           = [Call kwargs; Write stdout success_line])
  \/ (exists kwargs e,
        transform_epub kwargs = Raises e
        /\ snd (run json_loads transform_epub sys_argv)
           = [Call kwargs; Write stderr (failure_line (str e))]).
Proof.
  destruct (run_endings json_loads transform_epub sys_argv)
    as [[_ E] | [[e E] | (d & p & q & E)]]; rewrite E.
  - left. now exists stdout, no_arguments_line.
  - left. now exists stderr, (failure_line (str e)).
  - right. unfold conclude.
    destruct (transform_epub (call_of d p q)) as [v|e] eqn:T.
    + left. now exists (call_of d p q), v.
    + right. now exists (call_of d p q), e.
Qed.

(** ** The module body *)

(** X8.  The module acts only as a program whose import went through: it
    writes or calls something exactly when [__name__] is [__main__] and
    the import of [pdf_craft] returned.  When the import raises, the
    script writes nothing, not even a verdict: the exception reaches the
    interpreter, which prints its traceback, and the exit status is 1. *)
Theorem module_acts_only_as_program
    (json_loads : pystr -> returns value)
    (import_pdf_craft : list pystr -> returns (transform_epub_args -> returns value))
    (dunder_file dunder_name : pystr) (sys_argv sys_path : list pystr) :
  (snd (fst (convert_pdf json_loads import_pdf_craft
               dunder_file dunder_name sys_argv sys_path)) <> []
   <-> dunder_name = py "__main__"
       /\ exists transform_epub,
            import_pdf_craft (vendored_path dunder_file :: sys_path)
            = Returns transform_epub)
  /\ forall e,
       import_pdf_craft (vendored_path dunder_file :: sys_path) = Raises e ->
       snd (fst (convert_pdf json_loads import_pdf_craft
                   dunder_file dunder_name sys_argv sys_path)) = []
       /\ uncaught (fst (fst (convert_pdf json_loads import_pdf_craft
                                dunder_file dunder_name sys_argv sys_path)))
          = Some e
       /\ exit_status (fst (fst (convert_pdf json_loads import_pdf_craft
                                   dunder_file dunder_name sys_argv sys_path)))
          = 1%Z.
Proof.
  unfold convert_pdf. split.
  - destruct (import_pdf_craft (vendored_path dunder_file :: sys_path))
      as [te|e] eqn:I.
    + destruct (str_eqb dunder_name (py "__main__")) eqn:N.
      * apply str_eqb_eq in N. split.
        -- intros _. split; [exact N | now exists te].
        -- intros _. cbn [fst].
           destruct (run_endings json_loads te sys_argv)
             as [[_ E] | [[e E] | (d & p & q & E)]];
             unfold run in E; rewrite E; try discriminate.
           unfold conclude. destruct (te (call_of d p q)); discriminate.
      * split.
        -- intros H. now destruct H.
        -- intros [N' _]. apply str_eqb_eq in N'. congruence.
    + split.
      * intros H. now destruct H.
      * intros [_ [te H]]. discriminate H.
  - intros e I. rewrite I. repeat split.
Qed.

Lemma module_acts_only_as_program_witness :
  snd (fst (convert_pdf CPython.loads import_fails
              (py "/app/scripts/convert_pdf.py") (py "__main__")
              [script; sample_request] [])) = []
  /\ exit_status (fst (fst (convert_pdf CPython.loads import_fails
                              (py "/app/scripts/convert_pdf.py") (py "__main__")
                              [script; sample_request] []))) = 1%Z.
Proof.
  destruct (proj2 (module_acts_only_as_program CPython.loads import_fails
                     (py "/app/scripts/convert_pdf.py") (py "__main__")
                     [script; sample_request] [])
              {| exc_type := "ModuleNotFoundError";
                 exc_str := py "No module named 'pdf_craft'" |} eq_refl)
    as (W & _ & S).
  split; [exact W | exact S].
Defined.

(** ** The directory of the vendored library *)

Lemma after_last_sep_app (a b : pystr) (i found : nat) :
  posixpath.after_last_sep (a ++ b) i found
  = posixpath.after_last_sep b (i + length a) (posixpath.after_last_sep a i found).
Proof.
  revert i found. induction a as [|c a IH]; intros i found; cbn.
  - now rewrite Nat.add_0_r.
  - rewrite IH. f_equal. lia.
Qed.

Lemma after_last_sep_none (b : pystr) (i found : nat) :
  ~ In posixpath.sep b -> posixpath.after_last_sep b i found = found.
Proof.
  revert i found. induction b as [|c b IH]; intros i found H; cbn; [reflexivity |].
  destruct (N.eqb_spec c posixpath.sep) as [-> | _].
  - exfalso. apply H. now left.
  - apply IH. intros K. apply H. now right.
Qed.

Lemma endswith_sep_last (l : pystr) (c : N) :
  posixpath.endswith_sep (l ++ [c]) = N.eqb c posixpath.sep.
Proof. unfold posixpath.endswith_sep. now rewrite rev_app_distr. Qed.

Lemma rstrip_sep_keeps (l : pystr) (c : N) :
  c <> posixpath.sep -> posixpath.rstrip_sep (l ++ [c]) = l ++ [c].
Proof.
  intros H. induction l as [|x l IH]; cbn.
  - destruct (N.eqb_spec c posixpath.sep); [contradiction | reflexivity].
  - rewrite IH. destruct (l ++ [c]) eqn:E; [| reflexivity].
    now destruct l.
Qed.

Lemma rstrip_sep_drops (l : pystr) :
  posixpath.rstrip_sep (l ++ [posixpath.sep]) = posixpath.rstrip_sep l.
Proof.
  induction l as [|x l IH]; cbn; [reflexivity |]. now rewrite IH.
Qed.

Lemma forallb_sep_last (l : pystr) (c : N) :
  c <> posixpath.sep -> forallb (N.eqb posixpath.sep) (l ++ [c] ++ [posixpath.sep]) = false.
Proof.
  intros H. rewrite forallb_app.
  change (forallb (N.eqb posixpath.sep) ([c] ++ [posixpath.sep]))
    with (N.eqb posixpath.sep c && (N.eqb posixpath.sep posixpath.sep && true)).
  destruct (N.eqb_spec posixpath.sep c) as [E | _]; [now destruct H |].
  apply andb_false_r.
Qed.

(** The directory part of a file name [dir/base]. *)
Lemma dirname_of_file (dir base : pystr) :
  dir <> [] ->
  posixpath.endswith_sep dir = false ->
  ~ In posixpath.sep base ->
  posixpath.dirname (dir ++ [posixpath.sep] ++ base) = dir.
Proof.
  intros Hne Hend Hbase.
  destruct (exists_last Hne) as (l & c & ->).
  rewrite endswith_sep_last in Hend. apply N.eqb_neq in Hend.
  unfold posixpath.dirname.
  rewrite after_last_sep_app. cbn [app posixpath.after_last_sep].
  rewrite N.eqb_refl, (after_last_sep_none _ _ _ Hbase). cbn [Nat.add].
  replace (firstn (S (length (l ++ [c]))) ((l ++ [c]) ++ posixpath.sep :: base))
    with ((l ++ [c]) ++ [posixpath.sep]).
  2:{ replace ((l ++ [c]) ++ posixpath.sep :: base)
        with (((l ++ [c]) ++ [posixpath.sep]) ++ base)
        by now rewrite <- app_assoc.
      replace (S (length (l ++ [c]))) with (length ((l ++ [c]) ++ [posixpath.sep]) + 0)%nat
        by (rewrite !length_app; cbn; lia).
      rewrite firstn_app_2. cbn. now rewrite app_nil_r. }
  rewrite <- app_assoc. rewrite (forallb_sep_last l c Hend).
  rewrite !length_app. cbn [length].
  replace (Nat.eqb (length l + (1 + 1)) 0) with false
    by (symmetry; apply Nat.eqb_neq; lia).
  cbn [negb andb]. rewrite app_assoc, rstrip_sep_drops.
  now apply rstrip_sep_keeps.
Qed.

Lemma dirname_without_sep (file : pystr) :
  ~ In posixpath.sep file -> posixpath.dirname file = [].
Proof.
  intros H. unfold posixpath.dirname.
  now rewrite (after_last_sep_none _ _ _ H).
Qed.

Lemma join_step_appends (path b : pystr) :
  path <> [] ->
  posixpath.endswith_sep path = false ->
  posixpath.startswith_sep b = false ->
  posixpath.join_step path b = path ++ [posixpath.sep] ++ b.
Proof.
  intros Hne Hend Hb. unfold posixpath.join_step. rewrite Hb, Hend.
  now destruct path.
Qed.

(** X9.  Whatever else happens (the import may raise, the module may be
    imported rather than run), [sys.path] gets one new first entry and
    keeps the others in order.  For a file [dir/base] the entry is
    [dir/../pdf-craft-main], a sibling of the directory of the script; for
    a file name without a slash it is [../pdf-craft-main], which is
    relative to the current directory. *)
Theorem vendored_directory_first
    (json_loads : pystr -> returns value)
    (import_pdf_craft : list pystr -> returns (transform_epub_args -> returns value))
    (dunder_name : pystr) (sys_argv sys_path : list pystr) :
  (forall dir base,
     dir <> [] ->
     posixpath.endswith_sep dir = false ->
     ~ In posixpath.sep base ->
     snd (convert_pdf json_loads import_pdf_craft
            (dir ++ [posixpath.sep] ++ base) dunder_name sys_argv sys_path)
     = (dir ++ py "/../pdf-craft-main") :: sys_path)
  /\ (forall file,
        ~ In posixpath.sep file ->
        snd (convert_pdf json_loads import_pdf_craft
               file dunder_name sys_argv sys_path)
        = py "../pdf-craft-main" :: sys_path).
Proof.
  assert (S : forall file,
             snd (convert_pdf json_loads import_pdf_craft
                    file dunder_name sys_argv sys_path)
             = vendored_path file :: sys_path).
  { intros file. unfold convert_pdf.
    destruct (import_pdf_craft (vendored_path file :: sys_path)); [| reflexivity].
    now destruct (str_eqb dunder_name (py "__main__")). }
  split.
  - intros dir base Hne Hend Hbase. rewrite S. f_equal.
    unfold vendored_path. rewrite (dirname_of_file dir base Hne Hend Hbase).
    unfold posixpath.join. cbn [fold_left].
    rewrite (join_step_appends dir (py "..")) by (trivial; reflexivity).
    rewrite join_step_appends.
    + now rewrite <- !app_assoc.
    + now destruct dir.
    + unfold posixpath.endswith_sep. now rewrite !rev_app_distr.
    + reflexivity.
  - intros file H. rewrite S. f_equal.
    unfold vendored_path. now rewrite (dirname_without_sep file H).
Qed.

Lemma vendored_directory_first_witness :
  snd (convert_pdf CPython.loads import_succeeds
         (py "/app/scripts/convert_pdf.py") (py "__main__")
         [script; sample_request] [py "/usr/lib/python3.11"])
  = [py "/app/scripts/../pdf-craft-main"; py "/usr/lib/python3.11"]
  /\ snd (convert_pdf CPython.loads import_fails
            (py "convert_pdf.py") (py "worker")
            [script] [py "/usr/lib/python3.11"])
     = [py "../pdf-craft-main"; py "/usr/lib/python3.11"].
Proof.
  split.
  - apply (proj1 (vendored_directory_first CPython.loads import_succeeds
                    (py "__main__") [script; sample_request]
                    [py "/usr/lib/python3.11"])
             (py "/app/scripts") (py "convert_pdf.py")).
    + discriminate.
    + reflexivity.
    + cbn. intros H. repeat (destruct H as [H | H]; [discriminate H |]). exact H.
  - apply (proj2 (vendored_directory_first CPython.loads import_fails
                    (py "worker") [script] [py "/usr/lib/python3.11"])
             (py "convert_pdf.py")).
    cbn. intros H. repeat (destruct H as [H | H]; [discriminate H |]). exact H.
Defined.

(** ** Reading the response back *)

Lemma hex_value_hex_digit (d : N) :
  (d < 16)%N -> CPython.hex_value (hex_digit d) = Some d.
Proof.
  intros H.
  assert (K : In d [0; 1; 2; 3; 4; 5; 6; 7; 8; 9; 10; 11; 12; 13; 14; 15]%N)
    by (cbn; lia).
  repeat (destruct K as [<- | K]; [reflexivity |]). destruct K.
Qed.

Lemma hex_digits_value (n : N) :
  (n < 65536)%N ->
  ((((n / 4096) mod 16 * 16 + (n / 256) mod 16) * 16 + (n / 16) mod 16) * 16
   + n mod 16 = n)%N.
Proof.
  intros H.
  pose proof (N.div_mod n 16 ltac:(discriminate)).
  pose proof (N.div_mod (n / 16) 16 ltac:(discriminate)).
  pose proof (N.div_mod (n / 16 / 16) 16 ltac:(discriminate)).
  pose proof (N.mod_lt n 16 ltac:(discriminate)).
  pose proof (N.mod_lt (n / 16) 16 ltac:(discriminate)).
  pose proof (N.mod_lt (n / 16 / 16) 16 ltac:(discriminate)).
  assert (n / 256 = n / 16 / 16)%N as -> by (now rewrite N.Div0.div_div).
  assert (n / 4096 = n / 16 / 16 / 16)%N as -> by (now rewrite !N.Div0.div_div).
  assert (n / 16 / 16 / 16 < 16)%N.
  { rewrite !N.Div0.div_div. apply N.Div0.div_lt_upper_bound. cbn. lia. }
  rewrite (N.mod_small (n / 16 / 16 / 16) 16) by assumption.
  lia.
Qed.

Lemma lor_disjoint (x b : N) :
  (b < 1024)%N -> N.lor (x * 1024) b = (x * 1024 + b)%N.
Proof.
  intros H.
  assert (Z : N.land (x * 2 ^ 10) b = 0%N).
  { apply N.bits_inj. intros i. rewrite N.land_spec, N.bits_0.
    destruct (N.lt_ge_cases i 10) as [L | G].
    - now rewrite N.mul_pow2_bits_low.
    - rewrite <- (N.mod_small b (2 ^ 10)) by exact H.
      rewrite N.mod_pow2_bits_high by exact G. apply andb_false_r. }
  change 1024%N with (2 ^ 10)%N.
  rewrite <- (N.lxor_lor _ _ Z). symmetry. now apply N.add_nocarry_lxor.
Qed.

Lemma land_1023 (a : N) : N.land a 1023 = (a mod 1024)%N.
Proof. exact (N.land_ones a 10). Qed.

Lemma surrogate_pair (c : N) :
  (65536 <= c < 1114112)%N ->
  let n := (c - 65536)%N in
  let s1 := N.lor 55296 (N.land (N.shiftr n 10) 1023) in
  let s2 := N.lor 56320 (N.land n 1023) in
  (55296 <= s1 <= 56319)%N /\ (56320 <= s2 <= 57343)%N
  /\ (65536 + N.lor (N.shiftl (N.land s1 1023) 10) (N.land s2 1023))%N = c.
Proof.
  intros H n s1 s2.
  assert (Hn : (n < 1048576)%N) by (unfold n; lia).
  pose proof (N.div_mod n 1024 ltac:(discriminate)) as D.
  pose proof (N.mod_lt n 1024 ltac:(discriminate)) as M.
  assert (Q : (n / 1024 < 1024)%N)
    by (apply N.Div0.div_lt_upper_bound; cbn; lia).
  assert (E1 : s1 = (54 * 1024 + n / 1024)%N).
  { unfold s1. rewrite land_1023, N.shiftr_div_pow2.
    change (2 ^ 10)%N with 1024%N. rewrite (N.mod_small _ _ Q).
    change 55296%N with (54 * 1024)%N. now apply lor_disjoint. }
  assert (E2 : s2 = (55 * 1024 + n mod 1024)%N).
  { unfold s2. rewrite land_1023.
    change 56320%N with (55 * 1024)%N. now apply lor_disjoint. }
  clearbody s1 s2. subst s1 s2.
  assert (C : c = (65536 + n)%N) by (unfold n; lia). clearbody n.
  remember (n / 1024)%N as x eqn:Ex. remember (n mod 1024)%N as y eqn:Ey.
  split; [lia | split; [lia |]].
  rewrite !land_1023, N.shiftl_mul_pow2. change (2 ^ 10)%N with 1024%N.
  assert ((54 * 1024 + x) mod 1024 = x)%N as ->.
  { rewrite N.add_comm, N.Div0.mod_add. now apply N.mod_small. }
  assert ((55 * 1024 + y) mod 1024 = y)%N as ->.
  { rewrite N.add_comm, N.Div0.mod_add. now apply N.mod_small. }
  rewrite lor_disjoint by exact M. lia.
Qed.

(** ** Reading positions of a text through [skipn] *)

Lemma skipn_plus (s : pystr) (idx : nat) (a b : pystr) :
  skipn idx s = a ++ b -> skipn (idx + length a) s = b.
Proof.
  intros H. rewrite Nat.add_comm, <- skipn_skipn, H, skipn_app, skipn_all.
  now rewrite Nat.sub_diag.
Qed.

Lemma char_at_plus (s : pystr) (idx k : nat) :
  CPython.char_at s (idx + k) = nth_error (skipn idx s) k.
Proof. unfold CPython.char_at. now rewrite nth_error_skipn. Qed.

Lemma length_from_skipn (s : pystr) (idx : nat) (l : pystr) :
  skipn idx s = l -> l <> [] -> length s = (idx + length l)%nat.
Proof.
  intros H Hne. pose proof (length_skipn idx s) as L. rewrite H in L.
  destruct l; [now destruct Hne |]. cbn in *. lia.
Qed.

Lemma loop_plain (fuel : nat) (s : pystr) (begin end_ : nat) (chunks : pystr)
    (c : N) (rest : pystr) :
  skipn end_ s = c :: rest ->
  plain c = true ->
  CPython.scanstring_loop (S fuel) s begin end_ chunks
  = CPython.scanstring_loop (S fuel) s begin (S end_) (chunks ++ [c]).
Proof.
  intros H P.
  assert (H' : skipn (S end_) s = rest).
  { replace (S end_) with (end_ + length [c])%nat by (cbn; lia).
    now apply skipn_plus. }
  unfold plain in P. apply negb_true_iff in P.
  cbn [CPython.scanstring_loop]. rewrite H, H'. cbn [CPython.chunk]. rewrite P.
  destruct (CPython.chunk rest) as [[content terminator]|]; [| reflexivity].
  cbn [length]. rewrite Nat.add_succ_r. cbn [Nat.add].
  replace (chunks ++ c :: content) with ((chunks ++ [c]) ++ content)
    by now rewrite <- app_assoc.
  reflexivity.
Qed.

Lemma loop_escape2 (fuel : nat) (s : pystr) (begin end_ : nat) (chunks : pystr)
    (x c : N) (rest : pystr) :
  skipn end_ s = 92%N :: x :: rest ->
  x <> 117%N ->
  CPython.backslash x = Some c ->
  CPython.scanstring_loop (S fuel) s begin end_ chunks
  = CPython.scanstring_loop fuel s begin (end_ + 2) (chunks ++ [c]).
Proof.
  intros H X B.
  cbn [CPython.scanstring_loop]. rewrite H.
  change (CPython.chunk (92%N :: x :: rest)) with (Some (@nil N, 92%N)).
  cbn [length N.eqb Pos.eqb negb]. rewrite Nat.add_0_r, app_nil_r.
  replace (S end_) with (end_ + 1)%nat by lia.
  rewrite char_at_plus, H. cbn [nth_error].
  destruct (N.eqb_spec x 117) as [E | _]; [contradiction |]. cbn [negb].
  rewrite B. f_equal. lia.
Qed.

Lemma u_escape_digits (n : N) :
  u_escape n
  = [92; 117; hex_digit ((n / 4096) mod 16); hex_digit ((n / 256) mod 16);
     hex_digit ((n / 16) mod 16); hex_digit (n mod 16)]%N.
Proof. reflexivity. Qed.

Lemma hex4_at (s : pystr) (next : nat) (n : N) (rest : pystr) :
  (n < 65536)%N ->
  skipn next s
  = [hex_digit ((n / 4096) mod 16); hex_digit ((n / 256) mod 16);
     hex_digit ((n / 16) mod 16); hex_digit (n mod 16)]%N ++ rest ->
  CPython.hex4 s next = Some n.
Proof.
  intros Hn H. unfold CPython.hex4, CPython.slice.
  replace (next + 4 - next)%nat with 4%nat by lia.
  rewrite H. cbn [firstn app].
  rewrite !hex_value_hex_digit by (apply N.mod_lt; discriminate).
  now rewrite hex_digits_value.
Qed.

Lemma loop_escape_u (fuel : nat) (s : pystr) (begin end_ : nat) (chunks : pystr)
    (c : N) (rest : pystr) :
  skipn end_ s = u_escape c ++ rest ->
  rest <> [] ->
  (c < 65536)%N ->
  ~ (55296 <= c <= 56319)%N ->
  CPython.scanstring_loop (S fuel) s begin end_ chunks
  = CPython.scanstring_loop fuel s begin (end_ + 6) (chunks ++ [c]).
Proof.
  intros H Hrest Hc Hs. rewrite u_escape_digits in H.
  assert (L : length s = (end_ + (6 + length rest))%nat).
  { rewrite (length_from_skipn s end_ _ H) by discriminate.
    cbn [length app]. lia. }
  assert (H2 : skipn (end_ + 2) s
               = [hex_digit ((c / 4096) mod 16); hex_digit ((c / 256) mod 16);
                  hex_digit ((c / 16) mod 16); hex_digit (c mod 16)]%N ++ rest).
  { exact (skipn_plus s end_ [92; 117]%N _ H). }
  cbn [CPython.scanstring_loop]. rewrite H.
  match goal with
  | |- context [CPython.chunk ?l] => change (CPython.chunk l) with (Some (@nil N, 92%N))
  end.
  cbn [length N.eqb Pos.eqb negb]. rewrite Nat.add_0_r, app_nil_r.
  replace (S end_) with (end_ + 1)%nat by lia.
  rewrite char_at_plus, H. cbn [nth_error app N.eqb Pos.eqb negb].
  replace (S (end_ + 1)) with (end_ + 2)%nat by lia.
  replace (Nat.leb (length s) (end_ + 2 + 4)) with false
    by (symmetry; apply Nat.leb_gt; destruct rest; [now destruct Hrest | cbn in L; lia]).
  rewrite (hex4_at s (end_ + 2) c rest Hc H2).
  replace (N.leb 55296 c && N.leb c 56319) with false.
  2:{ symmetry. apply andb_false_iff.
      destruct (N.leb_spec 55296 c); [| now left].
      destruct (N.leb_spec c 56319); [| now right]. exfalso. apply Hs. lia. }
  cbn [andb]. f_equal. lia.
Qed.

Lemma loop_escape_pair (fuel : nat) (s : pystr) (begin end_ : nat) (chunks : pystr)
    (s1 s2 : N) (rest : pystr) :
  skipn end_ s = u_escape s1 ++ u_escape s2 ++ rest ->
  rest <> [] ->
  (55296 <= s1 <= 56319)%N ->
  (56320 <= s2 <= 57343)%N ->
  CPython.scanstring_loop (S fuel) s begin end_ chunks
  = CPython.scanstring_loop fuel s begin (end_ + 12)
      (chunks ++ [65536 + N.lor (N.shiftl (N.land s1 1023) 10) (N.land s2 1023)]%N).
Proof.
  intros H Hrest H1 H2. rewrite !u_escape_digits in H.
  assert (L : length s = (end_ + (12 + length rest))%nat).
  { rewrite (length_from_skipn s end_ _ H) by discriminate.
    cbn [length app]. lia. }
  assert (K2 : skipn (end_ + 2) s
               = [hex_digit ((s1 / 4096) mod 16); hex_digit ((s1 / 256) mod 16);
                  hex_digit ((s1 / 16) mod 16); hex_digit (s1 mod 16)]%N
                 ++ (u_escape s2 ++ rest)).
  { exact (skipn_plus s end_ [92; 117]%N _ H). }
  assert (K6 : skipn (end_ + 6) s = u_escape s2 ++ rest).
  { replace (end_ + 6)%nat with (end_ + 2 + 4)%nat by lia.
    exact (skipn_plus s (end_ + 2) _ _ K2). }
  assert (K8 : skipn (end_ + 8) s
               = [hex_digit ((s2 / 4096) mod 16); hex_digit ((s2 / 256) mod 16);
                  hex_digit ((s2 / 16) mod 16); hex_digit (s2 mod 16)]%N ++ rest).
  { replace (end_ + 8)%nat with (end_ + 6 + 2)%nat by lia.
    exact (skipn_plus s (end_ + 6) [92; 117]%N _ K6). }
  cbn [CPython.scanstring_loop]. rewrite H.
  match goal with
  | |- context [CPython.chunk ?l] => change (CPython.chunk l) with (Some (@nil N, 92%N))
  end.
  cbn [length N.eqb Pos.eqb negb]. rewrite Nat.add_0_r, app_nil_r.
  replace (S end_) with (end_ + 1)%nat by lia.
  rewrite char_at_plus, H. cbn [nth_error app N.eqb Pos.eqb negb].
  replace (S (end_ + 1)) with (end_ + 2)%nat by lia.
  replace (Nat.leb (length s) (end_ + 2 + 4)) with false
    by (symmetry; apply Nat.leb_gt; lia).
  rewrite (hex4_at s (end_ + 2) s1 _ ltac:(lia) K2).
  replace (N.leb 55296 s1) with true by (symmetry; apply N.leb_le; lia).
  replace (N.leb s1 56319) with true by (symmetry; apply N.leb_le; lia).
  replace (Nat.ltb (end_ + 2 + 4 + 6) (length s)) with true
    by (symmetry; apply Nat.ltb_lt; destruct rest; [now destruct Hrest | cbn in L; lia]).
  unfold CPython.char_is.
  replace (end_ + 2 + 4)%nat with (end_ + 6 + 0)%nat at 1 by lia.
  rewrite char_at_plus, K6, u_escape_digits.
  replace (S (end_ + 2 + 4))%nat with (end_ + 6 + 1)%nat by lia.
  rewrite char_at_plus, K6, u_escape_digits.
  cbn [nth_error app N.eqb Pos.eqb andb].
  replace (end_ + 2 + 4 + 2)%nat with (end_ + 8)%nat by lia.
  rewrite (hex4_at s (end_ + 8) s2 _ ltac:(lia) K8).
  replace (N.leb 56320 s2) with true by (symmetry; apply N.leb_le; lia).
  replace (N.leb s2 57343) with true by (symmetry; apply N.leb_le; lia).
  cbn [andb]. f_equal. lia.
Qed.

Lemma escape_char_cases (c : N) :
  scalar_value c ->
  (plain c = true /\ escape_char c = [c])
  \/ (exists x, escape_char c = [92%N; x] /\ x <> 117%N /\ CPython.backslash x = Some c)
  \/ ((c < 65536)%N /\ ~ (55296 <= c <= 56319)%N /\ escape_char c = u_escape c)
  \/ ((65536 <= c < 1114112)%N
      /\ escape_char c
         = u_escape (N.lor 55296 (N.land (N.shiftr (c - 65536) 10) 1023))
           ++ u_escape (N.lor 56320 (N.land (c - 65536) 1023))).
Proof.
  intros [Hmax Hsur]. unfold escape_char.
  repeat match goal with
         | |- context [if N.eqb c ?k then _ else _] =>
             destruct (N.eqb_spec c k) as [-> | ?];
             [right; left; eexists; split; [reflexivity | split; [discriminate | reflexivity]] |]
         end.
  destruct (N.leb 32 c && N.leb c 126) eqn:P.
  - left. split; [| reflexivity].
    apply andb_prop in P. destruct P as [P _]. apply N.leb_le in P.
    unfold plain. apply negb_true_iff.
    destruct (N.eqb_spec c 34); [contradiction |].
    destruct (N.eqb_spec c 92); [contradiction |].
    cbn [orb]. apply N.leb_gt. lia.
  - destruct (N.ltb_spec c 65536).
    + right. right. left. repeat split; trivial. lia.
    + right. right. right. split; [lia | reflexivity].
Qed.

(** [scanstring] reads back what [json.dumps] wrote for a string. *)
Lemma scan_encoded (message : pystr) :
  forall (fuel : nat) (s : pystr) (begin end_ : nat) (chunks suf : pystr),
    Forall scalar_value message ->
    (length message < fuel)%nat ->
    skipn end_ s = flat_map escape_char message ++ 34%N :: suf ->
    CPython.scanstring_loop fuel s begin end_ chunks
    = CPython.Scanned (chunks ++ message)
        (end_ + length (flat_map escape_char message) + 1).
Proof.
  induction message as [|c m IH]; intros fuel s begin end_ chunks suf W F H.
  - destruct fuel as [|fuel]; [cbn in F; lia |].
    cbn [flat_map app] in H. cbn [CPython.scanstring_loop]. rewrite H.
    change (CPython.chunk (34%N :: suf)) with (Some (@nil N, 34%N)).
    cbn [N.eqb Pos.eqb length flat_map]. f_equal. lia.
  - destruct fuel as [|fuel]; [cbn in F; lia |]. cbn [length] in F.
    inversion W as [|? ? Wc Wm]; subst.
    cbn [flat_map] in H |- *. rewrite <- app_assoc in H. rewrite length_app.
    assert (R : skipn (end_ + length (escape_char c)) s
                = flat_map escape_char m ++ 34%N :: suf)
      by exact (skipn_plus s end_ _ _ H).
    assert (Rne : flat_map escape_char m ++ 34%N :: suf <> [])
      by (now destruct (flat_map escape_char m)).
    destruct (escape_char_cases c Wc)
      as [[P E] | [(x & E & X & B) | [(L & S & E) | (L & E)]]];
      rewrite E in H, R |- *.
    + rewrite (loop_plain fuel s begin end_ chunks c _ H P).
      cbn [length] in R |- *. replace (end_ + 1)%nat with (S end_) in R by lia.
      rewrite (IH (S fuel) s begin (S end_) (chunks ++ [c]) suf Wm ltac:(lia) R).
      rewrite <- app_assoc. f_equal. lia.
    + rewrite (loop_escape2 fuel s begin end_ chunks x c _ H X B).
      cbn [length] in R |- *.
      rewrite (IH fuel s begin (end_ + 2)%nat (chunks ++ [c]) suf Wm ltac:(lia) R).
      rewrite <- app_assoc. f_equal. lia.
    + rewrite (loop_escape_u fuel s begin end_ chunks c _ H Rne L S).
      rewrite u_escape_digits in R |- *. cbn [length] in R |- *.
      rewrite (IH fuel s begin (end_ + 6)%nat (chunks ++ [c]) suf Wm ltac:(lia) R).
      rewrite <- app_assoc. f_equal. lia.
    + destruct (surrogate_pair c L) as (S1 & S2 & J).
      rewrite <- app_assoc in H.
      rewrite (loop_escape_pair fuel s begin end_ chunks _ _ _ H Rne S1 S2).
      rewrite J. rewrite length_app, !u_escape_digits in R |- *.
      cbn [length] in R |- *.
      replace (end_ + (6 + 6))%nat with (end_ + 12)%nat in R by lia.
      rewrite (IH fuel s begin (end_ + 12)%nat (chunks ++ [c]) suf Wm ltac:(lia) R).
      rewrite <- app_assoc. f_equal. lia.
Qed.

Lemma escape_char_not_empty (c : N) : (1 <= length (escape_char c))%nat.
Proof.
  unfold escape_char.
  repeat match goal with
         | |- context [if ?b then _ else _] => destruct b
         end; try (cbn; lia).
Qed.

Lemma length_encoded (message : pystr) :
  (length message <= length (flat_map escape_char message))%nat.
Proof.
  induction message as [|c m IH]; cbn [flat_map length]; [lia |].
  rewrite length_app. pose proof (escape_char_not_empty c). lia.
Qed.

Lemma scanstring_encoded (s : pystr) (end_ : nat) (message suf : pystr) :
  Forall scalar_value message ->
  skipn end_ s = flat_map escape_char message ++ 34%N :: suf ->
  CPython.scanstring s end_
  = CPython.Scanned message (end_ + length (flat_map escape_char message) + 1).
Proof.
  intros W H. unfold CPython.scanstring.
  assert (F : (length message < length s)%nat).
  { pose proof (length_skipn end_ s) as L. rewrite H, length_app in L.
    pose proof (length_encoded message). cbn [length] in L. lia. }
  now rewrite (scan_encoded message (length s) s (end_ - 1) end_ [] suf W F H).
Qed.

Lemma skipn_past (E r : pystr) : skipn (length E + 1) (E ++ 34%N :: r) = r.
Proof.
  rewrite Nat.add_comm, <- skipn_skipn, skipn_app, skipn_all, Nat.sub_diag.
  reflexivity.
Qed.

(** Reading a text at a position whose remainder is known. *)
Lemma char_at_at (s : pystr) (k : nat) (x : N) (r : pystr) :
  skipn k s = x :: r -> CPython.char_at s k = Some x.
Proof.
  intros H. unfold CPython.char_at. now rewrite <- hd_error_skipn, H.
Qed.

Lemma char_is_at (s : pystr) (k : nat) (c x : N) (r : pystr) :
  skipn k s = x :: r -> CPython.char_is s k c = N.eqb x c.
Proof.
  intros H. unfold CPython.char_is. now rewrite (char_at_at s k x r H).
Qed.

Lemma skip_whitespace_at (s : pystr) (k : nat) (l : pystr) :
  skipn k s = l ->
  CPython.skip_whitespace s k = (k + CPython.span CPython.is_whitespace l)%nat.
Proof. intros H. unfold CPython.skip_whitespace. now rewrite H. Qed.

Lemma slice_at (s : pystr) (i j : nat) (l : pystr) :
  skipn i s = l -> CPython.slice s i j = firstn (j - i) l.
Proof. intros H. unfold CPython.slice. now rewrite H. Qed.

Lemma loads_decode (s : pystr) (c : N) (r : pystr) :
  s = c :: r -> c <> 65279%N -> CPython.loads s = CPython.decode s.
Proof.
  intros -> H. unfold CPython.loads.
  destruct c as [|p]; [reflexivity |].
  destruct (N.eqb_spec (N.pos p) 65279) as [E | _]; [contradiction |].
  do 16 (destruct p as [p|p|]; try reflexivity).
  now destruct H.
Qed.

(** The scanner on a string, on [false] and on an object. *)
Lemma scan_once_string (depth : nat) (s : pystr) (idx : nat) (r : pystr) :
  skipn idx s = 34%N :: r ->
  CPython.scan_once depth s idx
  = match CPython.scanstring s (S idx) with
    | CPython.Scanned text next_idx => CPython.Scanned (VStr text) next_idx
    | CPython.StopIteration i => CPython.StopIteration i
    | CPython.Failed e => CPython.Failed e
    end.
Proof.
  intros H. destruct depth; cbn [CPython.scan_once];
    now rewrite (char_at_at s idx _ _ H).
Qed.

Lemma scan_once_false (depth : nat) (s : pystr) (idx : nat) (r : pystr) :
  skipn idx s = [102; 97; 108; 115; 101]%N ++ r ->
  CPython.scan_once depth s idx = CPython.Scanned (VBool false) (idx + 5).
Proof.
  intros H. cbn [app] in H.
  destruct depth; cbn [CPython.scan_once];
    rewrite (char_at_at s idx _ _ H); cbn [N.eqb Pos.eqb];
    rewrite !(slice_at s idx _ _ H);
    replace (idx + 4 - idx)%nat with 4%nat by lia;
    replace (idx + 5 - idx)%nat with 5%nat by lia;
    reflexivity.
Qed.

Lemma scan_once_object (depth : nat) (s : pystr) (idx : nat) (r : pystr) :
  skipn idx s = 123%N :: 34%N :: r ->
  CPython.scan_once (S depth) s idx
  = CPython.object_loop (CPython.scan_once depth) (length s) s (S idx) [].
Proof.
  intros H.
  assert (H1 : skipn (S idx) s = 34%N :: r).
  { replace (S idx) with (idx + length [123%N])%nat by (cbn; lia).
    exact (skipn_plus s idx [123%N] _ H). }
  cbn [CPython.scan_once]. rewrite (char_at_at s idx _ _ H). cbn [N.eqb Pos.eqb].
  unfold CPython.parse_object.
  rewrite (skip_whitespace_at s (S idx) _ H1).
  cbn [CPython.span CPython.is_whitespace N.eqb Pos.eqb orb]. rewrite Nat.add_0_r.
  now rewrite (char_is_at s (S idx) 125 _ _ H1).
Qed.

(** One round of the object parser on [key: value] as [json.dumps] writes
    it, before a comma and before the closing brace. *)
Lemma object_loop_next (scan : pystr -> nat -> CPython.scan value)
    (fuel : nat) (s : pystr) (idx : nat) (rval : dict)
    (key : pystr) (n1 n2 : nat) (val : value) (r0 r1 r2 : pystr) :
  skipn idx s = 34%N :: r0 ->
  CPython.scanstring s (S idx) = CPython.Scanned key n1 ->
  skipn n1 s = 58%N :: 32%N :: r1 ->
  ~ In (hd 0%N r1) [32; 9; 10; 13]%N ->
  scan s (n1 + 2)%nat = CPython.Scanned val n2 ->
  skipn n2 s = 44%N :: 32%N :: r2 ->
  ~ In (hd 0%N r2) [32; 9; 10; 13]%N ->
  CPython.object_loop scan (S fuel) s idx rval
  = CPython.object_loop scan fuel s (n2 + 2) (dict_setitem rval key val).
Proof.
  intros H0 Hk H1 W1 Hv H2 W2.
  assert (H1' : skipn (S n1) s = 32%N :: r1).
  { replace (S n1) with (n1 + length [58%N])%nat by (cbn; lia).
    exact (skipn_plus s n1 [58%N] _ H1). }
  assert (H2' : skipn (S n2) s = 32%N :: r2).
  { replace (S n2) with (n2 + length [44%N])%nat by (cbn; lia).
    exact (skipn_plus s n2 [44%N] _ H2). }
  assert (S1 : CPython.span CPython.is_whitespace r1 = 0%nat).
  { destruct r1 as [|x r1]; [reflexivity |]. cbn in W1 |- *.
    unfold CPython.is_whitespace.
    destruct (N.eqb_spec x 32); [exfalso; auto |].
    destruct (N.eqb_spec x 9); [exfalso; auto |].
    destruct (N.eqb_spec x 10); [exfalso; auto 6 |].
    destruct (N.eqb_spec x 13); [exfalso; auto 6 |]. reflexivity. }
  assert (S2 : CPython.span CPython.is_whitespace r2 = 0%nat).
  { destruct r2 as [|x r2]; [reflexivity |]. cbn in W2 |- *.
    unfold CPython.is_whitespace.
    destruct (N.eqb_spec x 32); [exfalso; auto |].
    destruct (N.eqb_spec x 9); [exfalso; auto |].
    destruct (N.eqb_spec x 10); [exfalso; auto 6 |].
    destruct (N.eqb_spec x 13); [exfalso; auto 6 |]. reflexivity. }
  cbn [CPython.object_loop].
  rewrite (char_is_at s idx 34 _ _ H0). cbn [N.eqb Pos.eqb negb].
  rewrite Hk.
  rewrite (skip_whitespace_at s n1 _ H1).
  cbn [CPython.span CPython.is_whitespace N.eqb Pos.eqb orb]. rewrite Nat.add_0_r.
  rewrite (char_is_at s n1 58 _ _ H1). cbn [N.eqb Pos.eqb negb].
  rewrite (skip_whitespace_at s (S n1) _ H1').
  cbn [CPython.span]. change (CPython.is_whitespace 32) with true. cbn iota.
  rewrite S1. replace (S n1 + 1)%nat with (n1 + 2)%nat by lia.
  rewrite Hv.
  rewrite (skip_whitespace_at s n2 _ H2).
  cbn [CPython.span CPython.is_whitespace N.eqb Pos.eqb orb]. rewrite Nat.add_0_r.
  rewrite !(char_is_at s n2 _ _ _ H2). cbn [N.eqb Pos.eqb negb].
  rewrite (skip_whitespace_at s (S n2) _ H2').
  cbn [CPython.span]. change (CPython.is_whitespace 32) with true. cbn iota.
  rewrite S2. now replace (S n2 + 1)%nat with (n2 + 2)%nat by lia.
Qed.

Lemma object_loop_last (scan : pystr -> nat -> CPython.scan value)
    (fuel : nat) (s : pystr) (idx : nat) (rval : dict)
    (key : pystr) (n1 n2 : nat) (val : value) (r0 r1 r2 : pystr) :
  skipn idx s = 34%N :: r0 ->
  CPython.scanstring s (S idx) = CPython.Scanned key n1 ->
  skipn n1 s = 58%N :: 32%N :: r1 ->
  ~ In (hd 0%N r1) [32; 9; 10; 13]%N ->
  scan s (n1 + 2)%nat = CPython.Scanned val n2 ->
  skipn n2 s = 125%N :: r2 ->
  CPython.object_loop scan (S fuel) s idx rval
  = CPython.Scanned (VDict (dict_setitem rval key val)) (S n2).
Proof.
  intros H0 Hk H1 W1 Hv H2.
  assert (H1' : skipn (S n1) s = 32%N :: r1).
  { replace (S n1) with (n1 + length [58%N])%nat by (cbn; lia).
    exact (skipn_plus s n1 [58%N] _ H1). }
  assert (S1 : CPython.span CPython.is_whitespace r1 = 0%nat).
  { destruct r1 as [|x r1]; [reflexivity |]. cbn in W1 |- *.
    unfold CPython.is_whitespace.
    destruct (N.eqb_spec x 32); [exfalso; auto |].
    destruct (N.eqb_spec x 9); [exfalso; auto |].
    destruct (N.eqb_spec x 10); [exfalso; auto 6 |].
    destruct (N.eqb_spec x 13); [exfalso; auto 6 |]. reflexivity. }
  cbn [CPython.object_loop].
  rewrite (char_is_at s idx 34 _ _ H0). cbn [N.eqb Pos.eqb negb].
  rewrite Hk.
  rewrite (skip_whitespace_at s n1 _ H1).
  cbn [CPython.span CPython.is_whitespace N.eqb Pos.eqb orb]. rewrite Nat.add_0_r.
  rewrite (char_is_at s n1 58 _ _ H1). cbn [N.eqb Pos.eqb negb].
  rewrite (skip_whitespace_at s (S n1) _ H1').
  cbn [CPython.span]. change (CPython.is_whitespace 32) with true. cbn iota.
  rewrite S1. replace (S n1 + 1)%nat with (n1 + 2)%nat by lia.
  rewrite Hv.
  rewrite (skip_whitespace_at s n2 _ H2).
  cbn [CPython.span CPython.is_whitespace N.eqb Pos.eqb orb]. rewrite Nat.add_0_r.
  now rewrite (char_is_at s n2 125 _ _ H2).
Qed.

Ltac note_skipn s k H :=
  let t := eval unfold s in (skipn k s) in
  let t' := eval cbn [skipn app] in t in
  assert (H : skipn k s = t') by reflexivity.

(** X10.  The failure line can be read back: for an exception text made
    of Unicode scalar values, [json.loads] of the line written to standard
    error gives the object with [success] false and [error] the text
    itself, whatever quotes, control characters or characters outside
    ASCII the text holds. *)
Theorem failure_line_round_trip (message : pystr) :
  Forall scalar_value message ->
  CPython.loads (failure_line message)
  = Returns (VDict [(py "success", VBool false); (py "error", VStr message)]).
Proof.
  intros W. unfold failure_line, encode_basestring_ascii.
  set (E := flat_map escape_char message).
  let l := eval vm_compute in (jq "{'success': false, 'error': ") in
  change (jq "{'success': false, 'error': ") with l.
  change (py "}") with [125%N]. unfold newline.
  cbn [app]. rewrite <- app_assoc. cbn [app].
  match goal with |- CPython.loads ?t = _ => set (s := t) end.
  note_skipn s 0%nat K0. note_skipn s 1%nat K1. note_skipn s 2%nat K2.
  note_skipn s 10%nat K10. note_skipn s 11%nat K11. note_skipn s 12%nat K12.
  note_skipn s 17%nat K17. note_skipn s 18%nat K18. note_skipn s 19%nat K19.
  note_skipn s 20%nat K20. note_skipn s 26%nat K26. note_skipn s 27%nat K27.
  note_skipn s 28%nat K28. note_skipn s 29%nat K29.
  assert (L : length s = S (S (length E + 30))).
  { unfold s. cbn [length]. rewrite length_app. cbn [length]. lia. }
  rewrite (loads_decode s 123 _ K0) by discriminate.
  unfold CPython.decode.
  rewrite (skip_whitespace_at s 0 _ K0). cbn [CPython.span CPython.is_whitespace N.eqb Pos.eqb orb Nat.add].
  assert (Wk : forall key : pystr,
             Forall (fun c => (32 <= c <= 126)%N) key -> Forall scalar_value key).
  { intros key. apply Forall_impl. intros c Hc. unfold scalar_value. lia. }
  assert (S1 : CPython.scanstring s 2 = CPython.Scanned (py "success") 10).
  { refine (scanstring_encoded s 2 (py "success") _ _ K2).
    apply Wk. cbn. repeat (apply Forall_cons; [lia |]). apply Forall_nil. }
  assert (S2 : CPython.scanstring s 20 = CPython.Scanned (py "error") 26).
  { refine (scanstring_encoded s 20 (py "error") _ _ K20).
    apply Wk. cbn. repeat (apply Forall_cons; [lia |]). apply Forall_nil. }
  assert (S3 : CPython.scanstring s 29
               = CPython.Scanned message (29 + length E + 1)).
  { exact (scanstring_encoded s 29 message _ W K29). }
  assert (Kend : skipn (29 + length E + 1) s = [125; 10]%N).
  { replace (29 + length E + 1)%nat with (29 + length (E ++ [34%N]))%nat
      by (rewrite length_app; cbn; lia).
    apply skipn_plus. rewrite K29. now rewrite <- app_assoc. }
  assert (Knl : skipn (S (29 + length E + 1)) s = [10%N]).
  { replace (S (29 + length E + 1)) with (29 + length E + 1 + length [125%N])%nat
      by (cbn; lia).
    exact (skipn_plus s _ [125%N] _ Kend). }
  assert (Obj : CPython.scan_once CPython.max_nesting s 0
                = CPython.Scanned
                    (VDict [(py "success", VBool false); (py "error", VStr message)])
                    (S (29 + length E + 1))).
  { change CPython.max_nesting with (S 993). generalize 993%nat. intros depth.
    rewrite (scan_once_object depth s 0 _ K0), L.
    erewrite (object_loop_next (CPython.scan_once depth) _ s 1 []
               (py "success") 10 17 (VBool false) _ _ _ K1 S1 K10).
    - erewrite (object_loop_last (CPython.scan_once depth) _ s 19 _
                 (py "error") 26 (29 + length E + 1) (VStr message) _ _ _ K19 S2 K26).
      + reflexivity.
      + cbn. intros H. repeat (destruct H as [H | H]; [discriminate H |]). exact H.
      + change (26 + 2)%nat with 28%nat.
        now rewrite (scan_once_string depth s 28 _ K28), S3.
      + exact Kend.
    - cbn. intros H. repeat (destruct H as [H | H]; [discriminate H |]). exact H.
    - exact (scan_once_false depth s 12 _ K12).
    - exact K17.
    - cbn. intros H. repeat (destruct H as [H | H]; [discriminate H |]). exact H. }
  rewrite Obj, (skip_whitespace_at s _ _ Knl), L.
  cbn [CPython.span CPython.is_whitespace N.eqb Pos.eqb orb].
  replace (Nat.eqb (S (29 + length E + 1) + 1) (S (S (length E + 30)))) with true
    by (symmetry; apply Nat.eqb_eq; lia).
  reflexivity.
Qed.

Lemma failure_line_round_trip_witness :
  Forall scalar_value awkward_text
  /\ CPython.loads (failure_line awkward_text)
     = Returns (VDict [(py "success", VBool false); (py "error", VStr awkward_text)]).
Proof.
  assert (W : Forall scalar_value awkward_text).
  { unfold awkward_text. cbn.
    repeat (apply Forall_cons; [unfold scalar_value; lia |]). apply Forall_nil. }
  split; [exact W | exact (failure_line_round_trip awkward_text W)].
Defined.

(** Two surrogates in a row are not read back: they come out as the one
    character they encode. *)
Example surrogates_are_joined :
  CPython.loads (failure_line [55357; 56832]%N)
  = Returns (VDict [(py "success", VBool false); (py "error", VStr [128512%N])]).
Proof. vm_compute. reflexivity. Qed.

(** ** Objects of strings *)

Lemma dumps_string_items (k v : pystr) (l : list (pystr * pystr)) :
  json_dumps (VDict (string_items ((k, v) :: l)))
  = py "{" ++ encode_basestring_ascii k ++ py ": " ++ encode_basestring_ascii v
    ++ items_text l ++ py "}".
Proof.
  cbn [string_items map fst snd json_dumps]. do 4 f_equal.
  induction l as [|[k' v'] l IH]; [reflexivity |].
  cbn [map fst snd items_text]. rewrite <- !app_assoc. do 4 f_equal.
  exact IH.
Qed.

(** One item [key: value] of strings at [idx], followed by [tail]. *)
Lemma item_scans (depth : nat) (s : pystr) (idx : nat) (k v tail : pystr) :
  scalar_text k -> scalar_text v ->
  skipn idx s
  = encode_basestring_ascii k ++ py ": " ++ encode_basestring_ascii v ++ tail ->
  (exists r0, skipn idx s = 34%N :: r0)
  /\ CPython.scanstring s (S idx)
     = CPython.Scanned k (idx + length (encode_basestring_ascii k))
  /\ skipn (idx + length (encode_basestring_ascii k)) s
     = 58%N :: 32%N :: (encode_basestring_ascii v ++ tail)
  /\ CPython.scan_once depth s (idx + length (encode_basestring_ascii k) + 2)
     = CPython.Scanned (VStr v)
         (idx + length (encode_basestring_ascii k) + 2
          + length (encode_basestring_ascii v))
  /\ skipn (idx + length (encode_basestring_ascii k) + 2
            + length (encode_basestring_ascii v)) s = tail.
Proof.
  intros Wk Wv H.
  assert (Lk : length (encode_basestring_ascii k)
               = S (length (flat_map escape_char k) + 1))
    by (unfold encode_basestring_ascii; cbn [app length]; rewrite length_app; cbn; lia).
  assert (Lv : length (encode_basestring_ascii v)
               = S (length (flat_map escape_char v) + 1))
    by (unfold encode_basestring_ascii; cbn [app length]; rewrite length_app; cbn; lia).
  assert (H1 : skipn (idx + length (encode_basestring_ascii k)) s
               = py ": " ++ encode_basestring_ascii v ++ tail)
    by exact (skipn_plus s idx _ _ H).
  assert (H2 : skipn (idx + length (encode_basestring_ascii k) + 2) s
               = encode_basestring_ascii v ++ tail)
    by exact (skipn_plus s _ (py ": ") _ H1).
  assert (H3 : skipn (idx + length (encode_basestring_ascii k) + 2
                      + length (encode_basestring_ascii v)) s = tail)
    by exact (skipn_plus s _ _ _ H2).
  assert (Hq : skipn idx s
               = 34%N :: (flat_map escape_char k
                          ++ 34%N :: (py ": " ++ encode_basestring_ascii v ++ tail))).
  { rewrite H. unfold encode_basestring_ascii at 1. cbn [app].
    now rewrite <- app_assoc. }
  assert (H2q : skipn (idx + length (encode_basestring_ascii k) + 2) s
                = 34%N :: (flat_map escape_char v ++ 34%N :: tail)).
  { rewrite H2. unfold encode_basestring_ascii at 1. cbn [app].
    now rewrite <- app_assoc. }
  assert (Hk : skipn (S idx) s
               = flat_map escape_char k
                 ++ 34%N :: (py ": " ++ encode_basestring_ascii v ++ tail)).
  { replace (S idx) with (idx + length [34%N])%nat by (cbn; lia).
    exact (skipn_plus s idx [34%N] _ Hq). }
  assert (Hv : skipn (S (idx + length (encode_basestring_ascii k) + 2)) s
               = flat_map escape_char v ++ 34%N :: tail).
  { replace (S (idx + length (encode_basestring_ascii k) + 2))
      with (idx + length (encode_basestring_ascii k) + 2 + length [34%N])%nat
      by (cbn; lia).
    exact (skipn_plus s _ [34%N] _ H2q). }
  split; [eexists; exact Hq | split; [| split; [exact H1 | split; [| exact H3]]]].
  - rewrite (scanstring_encoded s (S idx) k _ Wk Hk). f_equal. lia.
  - rewrite (scan_once_string depth s _ _ H2q),
      (scanstring_encoded s _ v _ Wv Hv). f_equal. lia.
Qed.

Lemma encoded_starts_with_quote (text tail : pystr) :
  ~ In (hd 0%N (encode_basestring_ascii text ++ tail)) [32; 9; 10; 13]%N.
Proof.
  cbn. intros H. repeat (destruct H as [H | H]; [discriminate H |]). exact H.
Qed.

(** The object parser reads back the items [json.dumps] wrote. *)
Lemma object_loop_strings (depth : nat) (l : list (pystr * pystr)) :
  forall (k v : pystr) (fuel : nat) (s : pystr) (idx : nat) (rval : dict)
         (suf : pystr),
    (length l < fuel)%nat ->
    scalar_text k -> scalar_text v ->
    Forall (fun kv => scalar_text (fst kv) /\ scalar_text (snd kv)) l ->
    skipn idx s
    = encode_basestring_ascii k ++ py ": " ++ encode_basestring_ascii v
      ++ items_text l ++ 125%N :: suf ->
    CPython.object_loop (CPython.scan_once depth) fuel s idx rval
    = CPython.Scanned (VDict (read_items ((k, v) :: l) rval))
        (idx + length (encode_basestring_ascii k ++ py ": "
                       ++ encode_basestring_ascii v ++ items_text l) + 1).
Proof.
  induction l as [|[k' v'] l IH]; intros k v fuel s idx rval suf F Wk Wv Wl H;
    (destruct fuel as [|fuel]; [cbn in F; lia |]).
  - cbn [items_text app] in H |- *.
    destruct (item_scans depth s idx k v (125%N :: suf) Wk Wv H)
      as ([r0 H0] & Sk & H1 & Sv & H3).
    rewrite (object_loop_last (CPython.scan_once depth) fuel s idx rval
               k _ _ (VStr v) r0 _ suf H0 Sk H1
               (encoded_starts_with_quote v _) Sv H3).
    cbn [read_items fold_left fst snd]. f_equal.
    rewrite !length_app. cbn [length py map list_ascii_of_string]. lia.
  - cbn [items_text] in H. rewrite <- !app_assoc in H.
    destruct (item_scans depth s idx k v _ Wk Wv H)
      as ([r0 H0] & Sk & H1 & Sv & H3).
    inversion Wl as [|? ? [Wk' Wv'] Wl']; subst. cbn [fst snd] in Wk', Wv'.
    assert (H3' : skipn (idx + length (encode_basestring_ascii k) + 2
                         + length (encode_basestring_ascii v)) s
                  = 44%N :: 32%N
                    :: (encode_basestring_ascii k' ++ py ": "
                        ++ encode_basestring_ascii v' ++ items_text l ++ 125%N :: suf))
      by exact H3.
    rewrite (object_loop_next (CPython.scan_once depth) fuel s idx rval
               k _ _ (VStr v) r0 _ _ H0 Sk H1
               (encoded_starts_with_quote v _) Sv H3'
               (encoded_starts_with_quote k' _)).
    assert (H4 : skipn (idx + length (encode_basestring_ascii k) + 2
                        + length (encode_basestring_ascii v) + 2) s
                 = encode_basestring_ascii k' ++ py ": "
                   ++ encode_basestring_ascii v' ++ items_text l ++ 125%N :: suf)
      by exact (skipn_plus s _ [44; 32]%N _ H3').
    cbn [length] in F.
    rewrite (IH k' v' fuel s _ (dict_setitem rval k (VStr v)) suf
               ltac:(lia) Wk' Wv' Wl' H4).
    cbn [read_items fold_left fst snd items_text]. f_equal.
    rewrite !length_app. cbn [length py map list_ascii_of_string]. lia.
Qed.

Lemma length_items_text (l : list (pystr * pystr)) :
  (length l <= length (items_text l))%nat.
Proof.
  induction l as [|[k v] l IH]; cbn [items_text length]; [lia |].
  rewrite !length_app. cbn [length py map list_ascii_of_string]. lia.
Qed.

(** [json.loads] reads back an object of strings written by [json.dumps];
    a key written twice keeps its last value. *)
Lemma loads_string_items (k v : pystr) (l : list (pystr * pystr)) :
  scalar_text k -> scalar_text v ->
  Forall (fun kv => scalar_text (fst kv) /\ scalar_text (snd kv)) l ->
  CPython.loads (json_dumps (VDict (string_items ((k, v) :: l))))
  = Returns (VDict (read_items ((k, v) :: l) [])).
Proof.
  intros Wk Wv Wl. rewrite dumps_string_items.
  set (body := encode_basestring_ascii k ++ py ": " ++ encode_basestring_ascii v
               ++ items_text l).
  assert (S0 : py "{" ++ encode_basestring_ascii k ++ py ": "
               ++ encode_basestring_ascii v ++ items_text l ++ py "}"
               = 123%N :: (body ++ [125%N])).
  { unfold body. change (py "{") with [123%N]. change (py "}") with [125%N].
    cbn [app]. now rewrite <- !app_assoc. }
  rewrite S0. set (s := 123%N :: (body ++ [125%N])).
  assert (K0 : skipn 0 s
               = 123%N :: 34%N :: (flat_map escape_char k ++ [34%N] ++ py ": "
                                   ++ encode_basestring_ascii v ++ items_text l
                                   ++ [125%N])).
  { unfold s, body, encode_basestring_ascii at 1. cbn [skipn app].
    now rewrite <- !app_assoc. }
  assert (K1 : skipn 1 s
               = encode_basestring_ascii k ++ py ": " ++ encode_basestring_ascii v
                 ++ items_text l ++ [125%N]).
  { unfold s, body. cbn [skipn]. now rewrite <- !app_assoc. }
  assert (L : length s = S (length body + 1))
    by (unfold s; cbn [length]; rewrite length_app; reflexivity).
  rewrite (loads_decode s 123 _ eq_refl) by discriminate.
  unfold CPython.decode.
  rewrite (skip_whitespace_at s 0 _ K0).
  cbn [CPython.span CPython.is_whitespace N.eqb Pos.eqb orb Nat.add].
  change CPython.max_nesting with (S 993).
  rewrite (scan_once_object 993 s 0 _ K0).
  rewrite (object_loop_strings 993 l k v (length s) s 1 [] [] ) ; trivial.
  - fold body.
    replace (1 + length body + 1)%nat with (length s) by lia.
    unfold CPython.skip_whitespace. rewrite skipn_all. cbn [CPython.span].
    now rewrite Nat.add_0_r, Nat.eqb_refl.
  - rewrite L. unfold body. rewrite !length_app.
    pose proof (length_items_text l). lia.
Qed.

(** X11.  The usage note, end to end: for four texts made of Unicode
    scalar values, the argument [json.dumps] builds from them is decoded
    and the conversion routine is called with exactly these paths and this
    title, with the author alone in the list of authors, or no author when
    the text is empty; the run then ends as the routine decides. *)
Theorem usage_request_is_served
    (transform_epub : transform_epub_args -> returns value)
    (prog p q t a : pystr) (rest : list pystr) :
  scalar_text p -> scalar_text q -> scalar_text t -> scalar_text a ->
  run CPython.loads transform_epub (prog :: usage_request p q t a :: rest)
  = conclude transform_epub
      {| pdf_path := VStr p;
         epub_path := VStr q;
         book_meta := {| title := VStr t;
                         authors := match a with [] => [] | _ => [VStr a] end |};
         ocr_size := py "small";
         includes_cover := true;
         includes_footnotes := true;
         ignore_pdf_errors := true;
         ignore_ocr_errors := true |}.
Proof.
  intros Wp Wq Wt Wa.
  assert (Wkey : forall key : pystr,
             Forall (fun c => (32 <= c <= 126)%N) key -> scalar_text key).
  { intros key. apply Forall_impl. intros c Hc. unfold scalar_value. lia. }
  assert (J : CPython.loads (usage_request p q t a)
              = Returns (VDict [(py "pdf_path", VStr p); (py "epub_path", VStr q);
                                (py "title", VStr t); (py "author", VStr a)])).
  { unfold usage_request.
    exact (loads_string_items (py "pdf_path") p
             [(py "epub_path", q); (py "title", t); (py "author", a)]
             ltac:(apply Wkey; cbn; repeat (apply Forall_cons; [lia |]); apply Forall_nil)
             Wp
             ltac:(repeat (apply Forall_cons;
                           [split; [apply Wkey; cbn;
                                    repeat (apply Forall_cons; [lia |]);
                                    apply Forall_nil
                                   | assumption] |]);
                   apply Forall_nil)). }
  rewrite (run_request CPython.loads transform_epub prog _ rest _ (VStr p) (VStr q) J
             eq_refl eq_refl).
  f_equal. unfold call_of.
  change (dict_lookup _ (py "title")) with (Some (VStr t)).
  change (dict_lookup _ (py "author")) with (Some (VStr a)).
  now destruct a.
Qed.

Lemma usage_request_is_served_witness :
  run CPython.loads Library.converts
    [script; usage_request (py "book.pdf") (py "book.epub") (py "Dune") awkward_text]
  = (Raise (SystemExit 0),
     [Call {| pdf_path := VStr (py "book.pdf");
              epub_path := VStr (py "book.epub");
              book_meta := {| title := VStr (py "Dune");
                              authors := [VStr awkward_text] |};
              ocr_size := py "small";
              includes_cover := true;
              includes_footnotes := true;
              ignore_pdf_errors := true;
              ignore_ocr_errors := true |};
      Write stdout success_line]).
Proof.
  assert (W : forall text : pystr,
             Forall (fun c => (c < 55296)%N) text -> scalar_text text).
  { intros text. apply Forall_impl. intros c Hc. unfold scalar_value. lia. }
  assert (Wa : scalar_text awkward_text).
  { unfold awkward_text. cbn.
    repeat (apply Forall_cons; [unfold scalar_value; lia |]). apply Forall_nil. }
  rewrite (usage_request_is_served Library.converts script
             (py "book.pdf") (py "book.epub") (py "Dune") awkward_text []
             ltac:(apply W; cbn; repeat (apply Forall_cons; [lia |]); apply Forall_nil)
             ltac:(apply W; cbn; repeat (apply Forall_cons; [lia |]); apply Forall_nil)
             ltac:(apply W; cbn; repeat (apply Forall_cons; [lia |]); apply Forall_nil)
             Wa).
  reflexivity.
Defined.
